(** * CrossyPosty: the conversation state machine and the publish orchestrator

    A shallow embedding of [bot.py]: the token store, the platform
    registry, the aiogram handlers of the upload flow and the publish loop,
    followed by the properties of the specification that concern them.

    Conventions of the embedding.
    - A Python [str] is the list of its code points.  Literals of the source
      are written [u "..."], the UTF-8 decoding of the literal.
    - A handler is a computation over a [world]: the token file, the FSM
      storage of the conversation (state and data bag) and the chronological
      trace of the calls made to the chat transport, the file system and the
      uploaders.  An exception leaves the handler together with the world as
      it was when it was raised.
    - The collaborators (uploaders, credential exchanges, file download,
      clock, uuid, [os.remove], environment variables) are the fields of a
      record [collaborators]; their answers are functions of their
      arguments.  Calls of the chat transport other than the download are
      taken to succeed. *)

From Stdlib Require Import List NArith ZArith String Ascii Bool Lia Permutation.
Import ListNotations.

Set Implicit Arguments.

(** ** Python strings *)

Module PyStr.

Definition char := N.
Definition str := list char.

(** UTF-8 decoding of a source literal, one byte at a time: [pending]
    continuation bytes are still expected for the code point [acc]. *)
Fixpoint utf8_decode (pending : nat) (acc : N) (bytes : list N) : str :=
  match bytes with
  | [] => []
  | b :: rest =>
      match pending with
      | O =>
          if (b <? 128)%N then b :: utf8_decode 0 0%N rest
          else if (b <? 224)%N then utf8_decode 1 (N.land b 31) rest
          else if (b <? 240)%N then utf8_decode 2 (N.land b 15) rest
          else utf8_decode 3 (N.land b 7) rest
      | S k =>
          let acc' := (acc * 64 + N.land b 63)%N in
          match k with
          | O => acc' :: utf8_decode 0 0%N rest
          | S _ => utf8_decode k acc' rest
          end
      end
  end.

Definition u (s : string) : str :=
  utf8_decode 0 0%N (map N_of_ascii (list_ascii_of_string s)).

Definition str_eq_dec : forall a b : str, {a = b} + {a <> b} :=
  list_eq_dec N.eq_dec.

Definition eqb (a b : str) : bool :=
  if str_eq_dec a b then true else false.

(** [x in l] for a list of strings. *)
Definition mem (x : str) (l : list str) : bool :=
  if in_dec str_eq_dec x l then true else false.

(** [str.isspace] of one character: CPython's [_PyUnicode_IsWhitespace]. *)
Definition isspace (c : char) : bool :=
  ((9 <=? c) && (c <=? 13) || (28 <=? c) && (c <=? 32)
   || (c =? 133) || (c =? 160) || (c =? 5760)
   || (8192 <=? c) && (c <=? 8202)
   || (c =? 8232) || (c =? 8233) || (c =? 8239) || (c =? 8287)
   || (c =? 12288))%N.

Fixpoint lstrip (s : str) : str :=
  match s with
  | [] => []
  | c :: rest => if isspace c then lstrip rest else s
  end.

Definition rstrip (s : str) : str := rev (lstrip (rev s)).

(** [s.strip()] *)
Definition strip (s : str) : str := rstrip (lstrip s).

(** [s.startswith(prefix)], returning what follows the prefix. *)
Fixpoint strip_prefix (prefix s : str) : option str :=
  match prefix, s with
  | [], _ => Some s
  | _ :: _, [] => None
  | a :: prefix', b :: s' =>
      if (a =? b)%N then strip_prefix prefix' s' else None
  end.

Definition startswith (s prefix : str) : bool :=
  match strip_prefix prefix s with Some _ => true | None => false end.

(** [old in s] *)
Fixpoint contains (s old : str) : bool :=
  startswith s old ||
  match s with
  | [] => false
  | _ :: rest => contains rest old
  end.

(** [s.replace(old, "")] for a non-empty [old]: every occurrence met from
    the left is dropped; [skip] characters of the occurrence being dropped
    remain. *)
Fixpoint remove_all_from (skip : nat) (old s : str) : str :=
  match s with
  | [] => []
  | c :: rest =>
      match skip with
      | S k => remove_all_from k old rest
      | O =>
          if startswith s old
          then remove_all_from (pred (List.length old)) old rest
          else c :: remove_all_from 0 old rest
      end
  end.

Definition remove_all (s old : str) : str := remove_all_from 0 old s.

(** ["\n".join(lines)] *)
Fixpoint join (sep : str) (lines : list str) : str :=
  match lines with
  | [] => []
  | [l] => l
  | l :: rest => l ++ sep ++ join sep rest
  end.

(** The longest prefix of characters satisfying [p], and the rest. *)
Fixpoint span (p : char -> bool) (s : str) : str * str :=
  match s with
  | [] => ([], [])
  | c :: rest =>
      if p c then let (a, b) := span p rest in (c :: a, b) else ([], s)
  end.

(** [s.split(maxsplit=1)]: the first word and, when something other than
    whitespace follows it, the remainder after the separating run. *)
Definition split_maxsplit1 (s : str) : list str :=
  match lstrip s with
  | [] => []
  | s1 =>
      let (word, rest) := span (fun c => negb (isspace c)) s1 in
      match lstrip rest with
      | [] => [word]
      | remainder => [word; remainder]
      end
  end.

(** [re.search(r"access_token=([^&]+)", s)], returning [match.group(1)]. *)
Fixpoint search_access_token (s : str) : option str :=
  let here :=
    match strip_prefix (u "access_token=") s with
    | Some after =>
        match fst (span (fun c => negb (c =? 38)%N) after) with
        | [] => None
        | token => Some token
        end
    | None => None
    end in
  match here with
  | Some token => Some token
  | None =>
      match s with
      | [] => None
      | _ :: rest => search_access_token rest
      end
  end.

Definition all_space (s : str) : Prop := Forall (fun c => isspace c = true) s.

(** Neither the first nor the last character is whitespace. *)
Definition trimmed (s : str) : Prop :=
  (forall c rest, s = c :: rest -> isspace c = false)
  /\ (forall c front, s = front ++ [c] -> isspace c = false).

End PyStr.

Import PyStr.

Definition nl : str := [10%N].

(** ** Python dicts

    A dict keeps its keys in insertion order, and [list(d.keys())] and
    [for k in d] expose that order: dicts are association lists without
    repeated keys. *)

Section Dict.

Variables (K V : Type) (eqbK : K -> K -> bool).

Definition dict := list (K * V).

(** [d.get(k)] *)
Fixpoint dict_get (d : dict) (k : K) : option V :=
  match d with
  | [] => None
  | (k', v) :: rest => if eqbK k' k then Some v else dict_get rest k
  end.

(** [k in d] *)
Definition dict_has (d : dict) (k : K) : bool :=
  match dict_get d k with Some _ => true | None => false end.

(** [d[k] = v]: an existing key keeps its place, a new one goes last. *)
Fixpoint dict_set (d : dict) (k : K) (v : V) : dict :=
  match d with
  | [] => [(k, v)]
  | (k', v') :: rest =>
      if eqbK k' k then (k', v) :: rest else (k', v') :: dict_set rest k v
  end.

(** [del d[k]] for a key that is present. *)
Fixpoint dict_del (d : dict) (k : K) : dict :=
  match d with
  | [] => []
  | (k', v') :: rest =>
      if eqbK k' k then rest else (k', v') :: dict_del rest k
  end.

(** [list(d.keys())] *)
Definition dict_keys (d : dict) : list K := map fst d.

End Dict.

(** ** Token storage

    [tokens.json] holds an object keyed by [str(user_id)], each value an
    object keyed by platform.  [str] is injective on integers, so the outer
    key is the integer itself.  Token data is JSON: the records built by the
    bot are objects of strings and of whatever the platform module returned. *)

#[warnings="-register-all"]
Inductive jvalue : Type :=
| JStr (s : str)
| JObj (fields : list (str * jvalue)).

Definition user_tokens := dict str jvalue.
Definition tokens_db := dict Z user_tokens.

(** ** Conversation storage (aiogram FSM) *)

Inductive UploadFlow : Type :=
| waiting_video
| waiting_title
| waiting_description
| choosing_platforms
| uploading.

(** The data bag of [FSMContext]; these are the only keys the bot writes. *)
Record context_data : Type := {
  connecting : option str;
  video_file_id : option str;
  video_file_size : option Z;
  title : option str;
  description : option str;
  selected_platforms : option (list str)
}.

Definition empty_data : context_data :=
  {| connecting := None; video_file_id := None; video_file_size := None;
     title := None; description := None; selected_platforms := None |}.

Definition with_connecting (p : str) (d : context_data) : context_data :=
  {| connecting := Some p; video_file_id := video_file_id d;
     video_file_size := video_file_size d; title := title d;
     description := description d; selected_platforms := selected_platforms d |}.

Definition with_video (file_id : str) (file_size : Z) (d : context_data)
  : context_data :=
  {| connecting := connecting d; video_file_id := Some file_id;
     video_file_size := Some file_size; title := title d;
     description := description d; selected_platforms := selected_platforms d |}.

Definition with_title (t : str) (d : context_data) : context_data :=
  {| connecting := connecting d; video_file_id := video_file_id d;
     video_file_size := video_file_size d; title := Some t;
     description := description d; selected_platforms := selected_platforms d |}.

Definition with_description (t : str) (d : context_data) : context_data :=
  {| connecting := connecting d; video_file_id := video_file_id d;
     video_file_size := video_file_size d; title := title d;
     description := Some t; selected_platforms := selected_platforms d |}.

Definition with_selected (l : list str) (d : context_data) : context_data :=
  {| connecting := connecting d; video_file_id := video_file_id d;
     video_file_size := video_file_size d; title := title d;
     description := description d; selected_platforms := Some l |}.

(** ** Observable calls *)

Record button : Type := { button_text : str; callback_data : str }.

Definition keyboard := list (list button).

Inductive event : Type :=
| Answer (text : str) (reply_markup : option keyboard)
| CallbackAnswer (alert : option str)
| EditReplyMarkup (reply_markup : option keyboard)
| EditText (text : str)
| DownloadFile (file_id local_path : str)
| UploadCall (p_id file_path video_title video_description : str)
    (token_data : jvalue)
| LogException (text : str)
| OsRemove (path : str).

(** ** The world of a handler and its monad *)

Record world : Type := {
  tokens_file : option tokens_db;
  fsm_state : option UploadFlow;
  fsm_data : context_data;
  trace : list event
}.

Inductive exn : Type :=
| KeyError (key : str)
| DownloadError (message : str).

Inductive outcome (A : Type) : Type :=
| Ok (a : A)
| Raised (e : exn).

Arguments Ok {A} a.
Arguments Raised {A} e.

Definition handler (A : Type) : Type := world -> outcome A * world.

Definition ret {A : Type} (a : A) : handler A := fun w => (Ok a, w).

Definition bind {A B : Type} (c : handler A) (k : A -> handler B) : handler B :=
  fun w =>
    match c w with
    | (Ok a, w') => k a w'
    | (Raised e, w') => (Raised e, w')
    end.

Definition raise {A : Type} (e : exn) : handler A := fun w => (Raised e, w).

Notation "x <- c ;; k" := (bind c (fun x => k))
  (at level 61, c at next level, right associativity).
Notation "c ;; k" := (bind c (fun _ => k))
  (at level 61, right associativity).

(** The calls made are appended to the trace, oldest first. *)
Definition add_trace (evs : list event) (w : world) : world :=
  {| tokens_file := tokens_file w; fsm_state := fsm_state w;
     fsm_data := fsm_data w; trace := trace w ++ evs |}.

Definition emit (e : event) : handler unit :=
  fun w => (Ok tt, add_trace [e] w).

(** [await state.get_data()] *)
Definition get_data : handler context_data := fun w => (Ok (fsm_data w), w).

(** [await state.update_data(...)] *)
Definition update_data (f : context_data -> context_data) : handler unit :=
  fun w =>
    (Ok tt, {| tokens_file := tokens_file w; fsm_state := fsm_state w;
               fsm_data := f (fsm_data w); trace := trace w |}).

(** [await state.set_state(s)] *)
Definition set_state (s : UploadFlow) : handler unit :=
  fun w =>
    (Ok tt, {| tokens_file := tokens_file w; fsm_state := Some s;
               fsm_data := fsm_data w; trace := trace w |}).

(** [await state.clear()]: aiogram resets the state to [None] and the data
    to the empty dict. *)
Definition cleared (w : world) : world :=
  {| tokens_file := tokens_file w; fsm_state := None;
     fsm_data := empty_data; trace := trace w |}.

Definition state_clear : handler unit := fun w => (Ok tt, cleared w).

Definition answer (text : str) (markup : option keyboard) : handler unit :=
  emit (Answer text markup).

(** *** Token storage functions *)

Definition load_tokens (w : world) : tokens_db :=
  match tokens_file w with
  | Some data => data
  | None => []
  end.

Definition save_tokens (data : tokens_db) : handler unit :=
  fun w =>
    (Ok tt, {| tokens_file := Some data; fsm_state := fsm_state w;
               fsm_data := fsm_data w; trace := trace w |}).

Definition tokens_of (data : tokens_db) (user_id : Z) : user_tokens :=
  match dict_get Z.eqb data user_id with
  | Some t => t
  | None => []
  end.

Definition get_user_tokens (user_id : Z) : handler user_tokens :=
  fun w => (Ok (tokens_of (load_tokens w) user_id), w).

Definition set_user_token (user_id : Z) (platform : str) (token_data : jvalue)
  : handler unit :=
  fun w =>
    let data := load_tokens w in
    let data :=
      if dict_has Z.eqb data user_id then data
      else dict_set Z.eqb data user_id [] in
    let data :=
      dict_set Z.eqb data user_id
        (dict_set eqb (tokens_of data user_id) platform token_data) in
    save_tokens data w.

Definition remove_user_token (user_id : Z) (platform : str) : handler unit :=
  fun w =>
    let data := load_tokens w in
    if dict_has Z.eqb data user_id
       && dict_has eqb (tokens_of data user_id) platform
    then
      save_tokens
        (dict_set Z.eqb data user_id
           (dict_del eqb (tokens_of data user_id) platform)) w
    else (Ok tt, w).

(** ** Collaborators *)

Inductive call_result (A : Type) : Type :=
| Returns (a : A)
| Raises (message : str).

Arguments Returns {A} a.
Arguments Raises {A} message.

(** What the handlers call outside the bot.  [Raises] is an [Exception]
    with its [str()]. *)
Record collaborators : Type := {
  (** [youtube.get_auth_url()], [None] when YouTube is not configured *)
  youtube_get_auth_url : option str;
  (** [os.getenv(name, "")] *)
  getenv : str -> str;
  (** [youtube.exchange_code(text)] *)
  youtube_exchange_code : str -> call_result jvalue;
  (** [instagram.login(username, password)] *)
  instagram_login : str -> str -> call_result jvalue;
  (** [tiktok.exchange_code(text)] *)
  tiktok_exchange_code : str -> call_result jvalue;
  (** [PLATFORMS[p_id]["uploader"].upload(file_path, title, description,
      token_data)]; an upload that returns gives a dict, of which the bot
      reads [result.get('url', 'OK')] only: [Returns (Some url)] when the
      entry is there, [Returns None] when it is not *)
  uploader_upload : str -> str -> str -> str -> jvalue -> call_result (option str);
  (** [bot.get_file(file_id)] followed by [bot.download_file(file_path,
      local_path)] *)
  bot_download : str -> str -> call_result unit;
  (** [uuid.uuid4().hex] *)
  uuid4_hex : str;
  (** [datetime.now().strftime('%Y-%m-%d %H:%M')] *)
  now_strftime : str;
  (** [os.remove(path)] *)
  os_remove : str -> call_result unit
}.

(** ** Platform registry *)

Record platform_info : Type := { name : str; emoji : str }.

Definition PLATFORMS : dict str platform_info :=
  [ (u "youtube", {| name := u "YouTube Shorts"; emoji := u "▶️" |});
    (u "vk", {| name := u "VK Clips"; emoji := u "📱" |});
    (u "instagram", {| name := u "Instagram Reels"; emoji := u "📸" |});
    (u "tiktok", {| name := u "TikTok"; emoji := u "🎵" |}) ].

(** [PLATFORMS[p_id]] *)
Definition platforms_getitem (p_id : str) : handler platform_info :=
  match dict_get eqb PLATFORMS p_id with
  | Some p_info => ret p_info
  | None => raise (KeyError p_id)
  end.

Definition registered (p_id : str) : Prop :=
  dict_get eqb PLATFORMS p_id <> None.

(** ** Handlers *)

Definition sp : str := u " ".

(** Truth value of a string: [if s:] *)
Definition truthy (s : str) : bool :=
  match s with
  | [] => false
  | _ :: _ => true
  end.

Definition or_default {A : Type} (o : option A) (d : A) : A :=
  match o with
  | Some a => a
  | None => d
  end.

Definition UploadFlow_eqb (a b : UploadFlow) : bool :=
  match a, b with
  | waiting_video, waiting_video
  | waiting_title, waiting_title
  | waiting_description, waiting_description
  | choosing_platforms, choosing_platforms
  | uploading, uploading => true
  | _, _ => false
  end.

(** [connect_platform], lines 147-225. *)
Definition connect_platform (env : collaborators) (data : str) : handler unit :=
  let platform := remove_all data (u "connect_") in
  (if eqb platform (u "youtube") then
     match youtube_get_auth_url env with
     | Some ((_ :: _) as url) =>
         answer (u "▶️ <b>Подключение YouTube</b>" ++ nl ++ nl
                 ++ u "1. Перейди по ссылке:" ++ nl ++ url ++ nl ++ nl
                 ++ u "2. Разреши доступ" ++ nl
                 ++ u "3. Скопируй код и отправь мне") None ;;
         set_state waiting_video ;;
         update_data (with_connecting (u "youtube"))
     | _ =>
         answer (u "❌ YouTube не настроен. Добавь client_secret.json от Google OAuth.")
           None
     end
   else if eqb platform (u "vk") then
     let vk_app_id := getenv env (u "VK_APP_ID") in
     if truthy vk_app_id then
       let url := u "https://oauth.vk.com/authorize?client_id=" ++ vk_app_id
                  ++ u "&scope=video,wall,offline&response_type=token&v=5.199" in
       answer (u "📱 <b>Подключение VK</b>" ++ nl ++ nl
               ++ u "1. Перейди по ссылке:" ++ nl ++ url ++ nl ++ nl
               ++ u "2. Разреши доступ" ++ nl
               ++ u "3. Скопируй ВСЮ ссылку из адресной строки и отправь мне")
         None ;;
       set_state waiting_video ;;
       update_data (with_connecting (u "vk"))
     else answer (u "❌ VK_APP_ID не задан в .env") None
   else if eqb platform (u "instagram") then
     answer (u "📸 <b>Подключение Instagram</b>" ++ nl ++ nl
             ++ u "Отправь логин и пароль через пробел:" ++ nl
             ++ u "<code>username password</code>" ++ nl ++ nl
             ++ u "⚠️ Рекомендуется использовать отдельный аккаунт." ++ nl
             ++ u "Данные хранятся только локально на сервере.") None ;;
     set_state waiting_video ;;
     update_data (with_connecting (u "instagram"))
   else if eqb platform (u "tiktok") then
     let client_key := getenv env (u "TIKTOK_CLIENT_KEY") in
     let redirect_uri := getenv env (u "TIKTOK_REDIRECT_URI") in
     if truthy client_key && truthy redirect_uri then
       let url := u "https://www.tiktok.com/v2/auth/authorize/"
                  ++ u "?client_key=" ++ client_key
                  ++ u "&scope=user.info.basic,video.upload,video.publish"
                  ++ u "&response_type=code"
                  ++ u "&redirect_uri=" ++ redirect_uri in
       answer (u "🎵 <b>Подключение TikTok</b>" ++ nl ++ nl
               ++ u "1. Перейди по ссылке:" ++ nl ++ url ++ nl ++ nl
               ++ u "2. Разреши доступ" ++ nl
               ++ u "3. Скопируй код из URL и отправь мне") None ;;
       set_state waiting_video ;;
       update_data (with_connecting (u "tiktok"))
     else
       answer (u "❌ TikTok не настроен. Нужен TIKTOK_CLIENT_KEY и TIKTOK_REDIRECT_URI в .env")
         None
   else ret tt) ;;
  emit (CallbackAnswer None).

(** [disconnect_platform], lines 244-250. *)
Definition disconnect_platform (user_id : Z) (data : str) : handler unit :=
  let platform := remove_all data (u "disconnect_") in
  remove_user_token user_id platform ;;
  p_info <- platforms_getitem platform ;;
  answer (u "✅ " ++ name p_info ++ u " отключён") None ;;
  emit (CallbackAnswer None).

(** [cmd_post], lines 253-257. *)
Definition cmd_post : handler unit :=
  state_clear ;;
  answer (u "📹 Отправь мне видео для публикации:") None ;;
  set_state waiting_video.

(** The credential step of one platform inside [handle_auth_text]: each
    [try] stores the record and confirms, each [except Exception as e]
    answers with the cause. *)
Definition exchange_and_store (user_id : Z) (platform : str)
    (exchanged : call_result jvalue) (ok_text error_prefix : str)
  : handler unit :=
  match exchanged with
  | Returns creds =>
      set_user_token user_id platform creds ;;
      answer ok_text None
  | Raises e => answer (error_prefix ++ e) None
  end.

(** The branches of [handle_auth_text] on the platform being connected,
    lines 272-316; [text] is the stripped message. *)
Definition credential_step (env : collaborators) (user_id : Z)
    (connecting text : str) : handler unit :=
  if eqb connecting (u "youtube") then
    exchange_and_store user_id (u "youtube")
      (youtube_exchange_code env text)
      (u "✅ YouTube подключён!") (u "❌ Ошибка: ")
  else if eqb connecting (u "vk") then
    if contains text (u "access_token=") then
      match search_access_token text with
      | Some token =>
          set_user_token user_id (u "vk")
            (JObj [(u "access_token", JStr token)]) ;;
          answer (u "✅ VK подключён!") None
      | None => answer (u "❌ Не удалось извлечь токен из ссылки") None
      end
    else answer (u "❌ Отправь полную ссылку из адресной строки") None
  else if eqb connecting (u "instagram") then
    match split_maxsplit1 text with
    | [username; password] =>
        match instagram_login env username password with
        | Returns result =>
            set_user_token user_id (u "instagram")
              (JObj [(u "username", JStr username); (u "session", result)]) ;;
            answer (u "✅ Instagram подключён!") None
        | Raises e => answer (u "❌ Ошибка входа: " ++ e) None
        end
    | _ => answer (u "Отправь логин и пароль через пробел") None
    end
  else if eqb connecting (u "tiktok") then
    exchange_and_store user_id (u "tiktok")
      (tiktok_exchange_code env text)
      (u "✅ TikTok подключён!") (u "❌ Ошибка: ")
  else ret tt.

(** [handle_auth_text], lines 260-318. *)
Definition handle_auth_text (env : collaborators) (user_id : Z)
    (message_text : str) : handler unit :=
  data <- get_data ;;
  match connecting data with
  | None | Some [] => answer (u "Отправь видео или нажми /post") None
  | Some ((_ :: _) as connecting) =>
      credential_step env user_id connecting (strip message_text) ;;
      state_clear
  end.

Definition MAX_VIDEO_SIZE : Z := 256 * 1024 * 1024.

(** [handle_video], lines 321-338; [file_size] is [video.file_size], an
    integer. *)
Definition handle_video (file_id : str) (file_size : Z) : handler unit :=
  state_clear ;;
  if (file_size >? MAX_VIDEO_SIZE)%Z then
    answer (u "❌ Видео слишком большое (макс 256 МБ)") None
  else
    update_data (with_video file_id file_size) ;;
    answer (u "✏️ Введи <b>заголовок</b> для видео (или отправь <code>-</code> чтобы пропустить):")
      None ;;
    set_state waiting_title.

(** [handle_video_note], lines 340-342. *)
Definition handle_video_note : handler unit :=
  answer (u "❌ Кружки не поддерживаются. Отправь обычное видео.") None.

(** [f"Video {datetime.now().strftime('%Y-%m-%d %H:%M')}"] *)
Definition placeholder_title (env : collaborators) : str :=
  u "Video " ++ now_strftime env.

(** The value [handle_title] stores. *)
Definition title_of (env : collaborators) (message_text : str) : str :=
  let title := strip message_text in
  if eqb title (u "-") then placeholder_title env else title.

(** [handle_title], lines 345-355. *)
Definition handle_title (env : collaborators) (message_text : str)
  : handler unit :=
  update_data (with_title (title_of env message_text)) ;;
  answer (u "📝 Введи <b>описание</b> (или <code>-</code> чтобы пропустить):")
    None ;;
  set_state waiting_description.

(** The rows of the choice keyboard, one per connected platform; the loop
    is the same in [handle_description] (lines 379-385) and in
    [toggle_platform] (lines 407-413). *)
Fixpoint platform_rows (selected p_ids : list str) : handler (list (list button)) :=
  match p_ids with
  | [] => ret []
  | p_id :: rest =>
      p_info <- platforms_getitem p_id ;;
      let checked := if mem p_id selected then u "☑️" else u "⬜" in
      rows <- platform_rows selected rest ;;
      ret ([ {| button_text := checked ++ sp ++ emoji p_info ++ sp ++ name p_info;
                callback_data := u "toggle_" ++ p_id |} ] :: rows)
  end.

Definition publish_row : list button :=
  [ {| button_text := u "🚀 Опубликовать"; callback_data := u "publish" |} ].

(** [handle_description], lines 358-390. *)
Definition handle_description (user_id : Z) (message_text : str)
  : handler unit :=
  let desc := strip message_text in
  let desc := if eqb desc (u "-") then [] else desc in
  update_data (with_description desc) ;;
  tokens <- get_user_tokens user_id ;;
  match tokens with
  | [] =>
      answer (u "❌ Нет подключённых платформ!" ++ nl
              ++ u "Используй /connect чтобы подключить аккаунты.") None ;;
      state_clear
  | _ :: _ =>
      let selected := dict_keys tokens in
      update_data (with_selected selected) ;;
      rows <- platform_rows selected (dict_keys tokens) ;;
      answer (u "Выбери платформы:") (Some (rows ++ [publish_row])) ;;
      set_state choosing_platforms
  end.

(** [l.remove(x)] for an [x] that is in [l]: the first occurrence goes. *)
Fixpoint list_remove (x : str) (l : list str) : list str :=
  match l with
  | [] => []
  | y :: rest => if eqb y x then rest else y :: list_remove x rest
  end.

(** The update of the selection in [toggle_platform], lines 399-402. *)
Definition toggle (platform : str) (selected : list str) : list str :=
  if mem platform selected then list_remove platform selected
  else selected ++ [platform].

(** [toggle_platform], lines 393-417. *)
Definition toggle_platform (user_id : Z) (data : str) : handler unit :=
  let platform := remove_all data (u "toggle_") in
  ctx <- get_data ;;
  let selected := toggle platform (or_default (selected_platforms ctx) []) in
  update_data (with_selected selected) ;;
  tokens <- get_user_tokens user_id ;;
  rows <- platform_rows selected (dict_keys tokens) ;;
  emit (EditReplyMarkup (Some (rows ++ [publish_row]))) ;;
  emit (CallbackAnswer None).

(** *** Publish *)

Definition success_line (p_info : platform_info) (url : option str) : str :=
  emoji p_info ++ sp ++ name p_info ++ u ": ✅ " ++ or_default url (u "OK").

Definition failure_line (p_info : platform_info) (e : str) : str :=
  emoji p_info ++ sp ++ name p_info ++ u ": ❌ " ++ e.

(** The loop of [publish], lines 450-468, with its two accumulators. *)
Fixpoint upload_each (env : collaborators) (tokens : user_tokens)
    (local_path video_title video_description : str)
    (selected results errors : list str) : handler (list str * list str) :=
  match selected with
  | [] => ret (results, errors)
  | p_id :: rest =>
      p_info <- platforms_getitem p_id ;;
      let p_tokens := or_default (dict_get eqb tokens p_id) (JObj []) in
      emit (EditText (u "⏳ Загружаю на " ++ emoji p_info ++ sp ++ name p_info
                      ++ u "...")) ;;
      emit (UploadCall p_id local_path video_title video_description p_tokens) ;;
      match uploader_upload env p_id local_path video_title video_description
              p_tokens with
      | Returns url =>
          upload_each env tokens local_path video_title video_description rest
            (results ++ [success_line p_info url]) errors
      | Raises e =>
          emit (LogException (u "Upload to " ++ p_id ++ u " failed")) ;;
          upload_each env tokens local_path video_title video_description rest
            results (errors ++ [failure_line p_info e])
      end
  end.

Definition report_header : str := u "<b>📊 Результат публикации:</b>" ++ nl.

(** The [lines] of the report, lines 477-482. *)
Definition report_lines (results errors : list str) : list str :=
  [report_header]
  ++ (match results with [] => [] | _ :: _ => results end)
  ++ (match errors with [] => [] | _ :: _ => [] :: errors end).

(** [str(DOWNLOAD_DIR / f"{uuid.uuid4().hex}.mp4")] *)
Definition local_path_of (env : collaborators) : str :=
  u "downloads/" ++ uuid4_hex env ++ u ".mp4".

(** [publish], lines 420-485.  The [logger.info] of the downloaded size is
    left out. *)
Definition publish (env : collaborators) (user_id : Z) : handler unit :=
  data <- get_data ;;
  match or_default (selected_platforms data) [] with
  | [] => emit (CallbackAnswer (Some (u "⚠️ Выбери хотя бы одну платформу!")))
  | (_ :: _) as selected =>
      emit (EditReplyMarkup None) ;;
      answer (u "⏳ Скачиваю видео...") None ;;
      tokens <- get_user_tokens user_id ;;
      let video_title := or_default (title data) (u "Video") in
      let video_description := or_default (description data) [] in
      file_id <- match video_file_id data with
                 | Some f => ret f
                 | None => raise (KeyError (u "video_file_id"))
                 end ;;
      let local_path := local_path_of env in
      emit (DownloadFile file_id local_path) ;;
      match bot_download env file_id local_path with
      | Raises e => raise (DownloadError e)
      | Returns _ =>
          r <- upload_each env tokens local_path video_title video_description
                 selected [] [] ;;
          emit (OsRemove local_path) ;;
          match os_remove env local_path with
          | Returns _ => ret tt
          | Raises _ => ret tt
          end ;;
          emit (EditText (join nl (report_lines (fst r) (snd r)))) ;;
          state_clear
      end
  end.

(** ** Routing

    aiogram offers an update to the handlers of its kind in the order they
    were registered and runs the first whose filters all hold.  A text
    message carries what the [Command] filter parses out of it, if it is a
    command; captions of videos are not modelled. *)

Inductive message : Type :=
| TextMessage (text : str) (command : option str)
| VideoMessage (file_id : str) (file_size : Z)
| VideoNoteMessage
| OtherMessage.

Inductive target : Type :=
| to_cmd_start | to_cmd_status | to_cmd_connect | to_cmd_disconnect
| to_cmd_post | to_handle_auth_text | to_handle_video | to_handle_video_note
| to_handle_title | to_handle_description | to_cmd_help
| to_connect_platform | to_disconnect_platform | to_toggle_platform
| to_publish.

Definition command_is (c : string) (m : message) : bool :=
  match m with
  | TextMessage _ (Some c') => eqb c' (u c)
  | _ => false
  end.

Definition is_text (m : message) : bool :=
  match m with
  | TextMessage _ _ => true
  | _ => false
  end.

Definition in_state (s : UploadFlow) (st : option UploadFlow) : bool :=
  match st with
  | Some s' => UploadFlow_eqb s' s
  | None => false
  end.

Definition message_handlers
  : list ((option UploadFlow -> message -> bool) * target) :=
  [ (fun _ m => command_is "start" m, to_cmd_start);
    (fun _ m => command_is "status" m, to_cmd_status);
    (fun _ m => command_is "connect" m, to_cmd_connect);
    (fun _ m => command_is "disconnect" m, to_cmd_disconnect);
    (fun _ m => command_is "post" m, to_cmd_post);
    (fun st m => in_state waiting_video st && is_text m, to_handle_auth_text);
    (fun _ m => match m with VideoMessage _ _ => true | _ => false end,
     to_handle_video);
    (fun _ m => match m with VideoNoteMessage => true | _ => false end,
     to_handle_video_note);
    (fun st m => in_state waiting_title st && is_text m, to_handle_title);
    (fun st m => in_state waiting_description st && is_text m,
     to_handle_description);
    (fun _ m => command_is "help" m, to_cmd_help) ].

Definition callback_handlers
  : list ((option UploadFlow -> str -> bool) * target) :=
  [ (fun _ data => startswith data (u "connect_"), to_connect_platform);
    (fun _ data => startswith data (u "disconnect_"), to_disconnect_platform);
    (fun st data => in_state choosing_platforms st
                    && startswith data (u "toggle_"), to_toggle_platform);
    (fun st data => in_state choosing_platforms st && eqb data (u "publish"),
     to_publish) ].

Fixpoint first_match {U : Type} (handlers : list ((option UploadFlow -> U -> bool) * target))
    (st : option UploadFlow) (update : U) : option target :=
  match handlers with
  | [] => None
  | (filter, t) :: rest =>
      if filter st update then Some t else first_match rest st update
  end.

Definition route_message := first_match message_handlers.
Definition route_callback := first_match callback_handlers.

(** Running a handler: its result and the world it leaves. *)
Definition result_of {A : Type} (c : handler A) (w : world) : outcome A := fst (c w).
Definition world_after {A : Type} (c : handler A) (w : world) : world := snd (c w).

(** The platforms whose upload was attempted, in the order of the calls. *)
Fixpoint upload_attempts (t : list event) : list str :=
  match t with
  | [] => []
  | UploadCall p_id _ _ _ _ :: rest => p_id :: upload_attempts rest
  | _ :: rest => upload_attempts rest
  end.

(** How often the local file at [path] was passed to [os.remove]. *)
Fixpoint removals (path : str) (t : list event) : nat :=
  match t with
  | [] => 0
  | OsRemove p :: rest => (if eqb p path then 1 else 0) + removals path rest
  | _ :: rest => removals path rest
  end.

(** The texts shown in the status message, oldest first. *)
Fixpoint status_texts (t : list event) : list str :=
  match t with
  | [] => []
  | EditText text :: rest => text :: status_texts rest
  | _ :: rest => status_texts rest
  end.

Definition initial_world : world :=
  {| tokens_file := None; fsm_state := None; fsm_data := empty_data; trace := [] |}.

(** ** What one run of the publish loop amounts to

    The loop is described platform by platform: what it shows and calls
    for one platform, and the line that platform's own answer contributes.
    [upload_each_run] below proves the loop equal to this description. *)

Section PublishLoop.

Variables (env : collaborators) (tokens : user_tokens).
Variables (local_path video_title video_description : str).

Definition is_registered (p_id : str) : bool := dict_has eqb PLATFORMS p_id.

(** The answer of [p_id]'s uploader to the call the loop makes. *)
Definition upload_answer (p_id : str) : call_result (option str) :=
  uploader_upload env p_id local_path video_title video_description
    (or_default (dict_get eqb tokens p_id) (JObj [])).

Definition attempt_events (p_id : str) : list event :=
  match dict_get eqb PLATFORMS p_id with
  | None => []
  | Some p_info =>
      [ EditText (u "⏳ Загружаю на " ++ emoji p_info ++ sp ++ name p_info
                  ++ u "...");
        UploadCall p_id local_path video_title video_description
          (or_default (dict_get eqb tokens p_id) (JObj [])) ]
      ++ match upload_answer p_id with
         | Returns _ => []
         | Raises _ => [LogException (u "Upload to " ++ p_id ++ u " failed")]
         end
  end.

Definition success_of (p_id : str) : list str :=
  match dict_get eqb PLATFORMS p_id, upload_answer p_id with
  | Some p_info, Returns url => [success_line p_info url]
  | _, _ => []
  end.

Definition failure_of (p_id : str) : list str :=
  match dict_get eqb PLATFORMS p_id, upload_answer p_id with
  | Some p_info, Raises e => [failure_line p_info e]
  | _, _ => []
  end.

(** The platforms reached before the first unregistered identifier. *)
Fixpoint registered_prefix (selected : list str) : list str :=
  match selected with
  | [] => []
  | p_id :: rest =>
      if is_registered p_id then p_id :: registered_prefix rest else []
  end.

Definition first_unregistered (selected : list str) : option str :=
  find (fun p_id => negb (is_registered p_id)) selected.

Definition successes (selected : list str) : list str :=
  flat_map success_of selected.

Definition failures (selected : list str) : list str :=
  flat_map failure_of selected.

Definition loop_events (selected : list str) : list event :=
  flat_map attempt_events selected.

End PublishLoop.

(** What [publish] does before the loop. *)
Definition publish_prologue (env : collaborators) (file_id : str) : list event :=
  [ EditReplyMarkup None;
    Answer (u "⏳ Скачиваю видео...") None;
    DownloadFile file_id (local_path_of env) ].

(** The arguments of the uploads of one run of [publish] in world [w]. *)
Definition publish_tokens (user_id : Z) (w : world) : user_tokens :=
  tokens_of (load_tokens w) user_id.

Definition publish_title (w : world) : str :=
  or_default (title (fsm_data w)) (u "Video").

Definition publish_description (w : world) : str :=
  or_default (description (fsm_data w)) [].

(** The answer of [p_id]'s uploader in that run. *)
Definition publish_upload (env : collaborators) (user_id : Z) (w : world)
    (p_id : str) : call_result (option str) :=
  upload_answer env (publish_tokens user_id w) (local_path_of env)
    (publish_title w) (publish_description w) p_id.

(** The report as the specification describes it: one outcome per platform,
    in the order the platforms were attempted. *)
Definition outcome_line (env : collaborators) (tokens : user_tokens)
    (local_path video_title video_description p_id : str) : list str :=
  success_of env tokens local_path video_title video_description p_id
  ++ failure_of env tokens local_path video_title video_description p_id.

Definition report_in_attempt_order (env : collaborators) (tokens : user_tokens)
    (local_path video_title video_description : str) (selected : list str)
  : list str :=
  report_header
  :: flat_map (outcome_line env tokens local_path video_title video_description)
       selected.

(** The last text shown in the status message. *)
Definition final_report (w : world) : str := last (status_texts (trace w)) [].

(** ** Failed credential attempts

    [exchange_fails env text p]: with [p] recorded as the platform being
    connected, the credential input [text] (already stripped) does not
    yield a record. *)
Inductive exchange_fails (env : collaborators) (text : str) : str -> Prop :=
| youtube_rejects (e : str) :
    youtube_exchange_code env text = Raises e ->
    exchange_fails env text (u "youtube")
| vk_no_token :
    contains text (u "access_token=") = false
    \/ search_access_token text = None ->
    exchange_fails env text (u "vk")
| instagram_malformed :
    (forall username password, split_maxsplit1 text <> [username; password]) ->
    exchange_fails env text (u "instagram")
| instagram_rejects (username password e : str) :
    split_maxsplit1 text = [username; password] ->
    instagram_login env username password = Raises e ->
    exchange_fails env text (u "instagram")
| tiktok_rejects (e : str) :
    tiktok_exchange_code env text = Raises e ->
    exchange_fails env text (u "tiktok").

(** ** The properties of the specification, as it words them, where the
    code is compared with them *)


(** Title input as the specification states it. *)
Definition title_as_specified (env : collaborators) (w : world)
    (message_text : str) : Prop :=
  let w' := world_after (handle_title env message_text) w in
  (message_text = u "-" ->
   exists t, title (fsm_data w') = Some t /\ t <> [])
  /\ (message_text <> u "-" -> title (fsm_data w') = Some message_text).


(** ** Sample collaborators and worlds *)

(** YouTube and Instagram uploads return a link, VK's upload raises; the
    YouTube code exchange and the removal of the local file fail. *)
Definition sample_env : collaborators :=
  {| youtube_get_auth_url := Some (u "https://accounts.example/auth");
     getenv := fun _ => [];
     youtube_exchange_code := fun _ => Raises (u "invalid_grant");
     instagram_login := fun _ _ => Returns (JObj []);
     tiktok_exchange_code := fun _ => Returns (JObj []);
     uploader_upload := fun p_id _ _ _ _ =>
       if eqb p_id (u "vk") then Raises (u "upload refused")
       else Returns (Some (u "https://video.example/" ++ p_id));
     bot_download := fun _ _ => Returns tt;
     uuid4_hex := u "0123456789abcdef0123456789abcdef";
     now_strftime := u "2024-05-06 07:08";
     os_remove := fun _ => Raises (u "Permission denied") |}.

(** The same, with a chat transport that fails to deliver the file. *)
Definition offline_env : collaborators :=
  {| youtube_get_auth_url := youtube_get_auth_url sample_env;
     getenv := getenv sample_env;
     youtube_exchange_code := youtube_exchange_code sample_env;
     instagram_login := instagram_login sample_env;
     tiktok_exchange_code := tiktok_exchange_code sample_env;
     uploader_upload := uploader_upload sample_env;
     bot_download := fun _ _ => Raises (u "Bad Request: file is too big");
     uuid4_hex := uuid4_hex sample_env;
     now_strftime := now_strftime sample_env;
     os_remove := os_remove sample_env |}.

Definition sample_user : Z := 7.

Definition sample_tokens : tokens_db :=
  [ (sample_user,
     [ (u "youtube", JObj [(u "token", JStr (u "ya29"))]);
       (u "vk", JObj [(u "access_token", JStr (u "vk1"))]);
       (u "instagram", JObj [(u "username", JStr (u "bob"))]) ]) ].

(** Three connected platforms, all selected, a video, title and description
    given: the conversation is in [choosing_platforms]. *)
Definition choosing_world : world :=
  {| tokens_file := Some sample_tokens;
     fsm_state := Some choosing_platforms;
     fsm_data :=
       {| connecting := None; video_file_id := Some (u "BAACAgIAAx");
          video_file_size := Some 1048576%Z; title := Some (u "Demo");
          description := Some []; 
          selected_platforms := Some [u "youtube"; u "vk"; u "instagram"] |};
     trace := [] |}.


(** A connection to YouTube is pending: [connect_platform] ran. *)
Definition connecting_world : world :=
  {| tokens_file := Some sample_tokens;
     fsm_state := Some waiting_video;
     fsm_data := with_connecting (u "youtube") empty_data;
     trace := [] |}.

(** ** Commands *)

(** One line of the account list of [cmd_start], lines 100-104. *)
Definition start_line (tokens : user_tokens) (entry : str * platform_info)
  : str :=
  let (p_id, p_info) := entry in
  u "  " ++ emoji p_info ++ sp ++ name p_info ++ sp
  ++ (if dict_has eqb tokens p_id then u "✅" else u "❌").

(** [cmd_start], lines 96-118. *)
Definition cmd_start (user_id : Z) : handler unit :=
  tokens <- get_user_tokens user_id ;;
  let connected := map (start_line tokens) PLATFORMS in
  answer (u "🚀 <b>CrossyPosty</b> — кросспостинг видео" ++ nl ++ nl
          ++ u "Отправь мне видео — я опубликую его на выбранных платформах."
          ++ nl ++ nl
          ++ u "<b>Подключённые аккаунты:</b>" ++ nl
          ++ join nl connected ++ nl ++ nl
          ++ u "<b>Команды:</b>" ++ nl
          ++ u "  /post — отправить видео" ++ nl
          ++ u "  /connect — подключить платформу" ++ nl
          ++ u "  /disconnect — отключить платформу" ++ nl
          ++ u "  /status — статус аккаунтов" ++ nl
          ++ u "  /help — помощь") None.

(** One line of [cmd_status], lines 125-129. *)
Definition status_line (tokens : user_tokens) (entry : str * platform_info)
  : str :=
  let (p_id, p_info) := entry in
  emoji p_info ++ sp ++ name p_info
  ++ (if dict_has eqb tokens p_id then u " — ✅ подключён"
      else u " — ❌ не подключён").

(** [cmd_status], lines 121-130. *)
Definition cmd_status (user_id : Z) : handler unit :=
  tokens <- get_user_tokens user_id ;;
  let lines := (u "<b>📊 Статус аккаунтов:</b>" ++ nl)
               :: map (status_line tokens) PLATFORMS in
  answer (join nl lines) None.

(** One row of the keyboard of [cmd_connect], lines 137-142. *)
Definition connect_row (tokens : user_tokens) (entry : str * platform_info)
  : list button :=
  let (p_id, p_info) := entry in
  let status := if dict_has eqb tokens p_id then u "✅" else u "❌" in
  [ {| button_text := emoji p_info ++ sp ++ name p_info ++ sp ++ status;
       callback_data := u "connect_" ++ p_id |} ].

(** [cmd_connect], lines 133-144. *)
Definition cmd_connect (user_id : Z) : handler unit :=
  tokens <- get_user_tokens user_id ;;
  answer (u "Выбери платформу для подключения:")
    (Some (map (connect_row tokens) PLATFORMS)).

(** The rows of the keyboard of [cmd_disconnect], lines 232-237: the
    platforms of the registry the user holds a token for. *)
Definition disconnect_rows (tokens : user_tokens) : keyboard :=
  flat_map
    (fun entry : str * platform_info =>
       let (p_id, p_info) := entry in
       if dict_has eqb tokens p_id then
         [ [ {| button_text := u "❌ Отключить " ++ emoji p_info ++ sp
                               ++ name p_info;
                callback_data := u "disconnect_" ++ p_id |} ] ]
       else [])
    PLATFORMS.

(** [cmd_disconnect], lines 228-242. *)
Definition cmd_disconnect (user_id : Z) : handler unit :=
  tokens <- get_user_tokens user_id ;;
  match disconnect_rows tokens with
  | [] => answer (u "Нет подключённых платформ.") None
  | (_ :: _) as buttons => answer (u "Выбери что отключить:") (Some buttons)
  end.

(** [cmd_help], lines 488-509. *)
Definition cmd_help : handler unit :=
  answer (u "🚀 <b>CrossyPosty — помощь</b>" ++ nl ++ nl
          ++ u "<b>Основные команды:</b>" ++ nl
          ++ u "  /post — отправить видео на публикацию" ++ nl
          ++ u "  /connect — подключить платформу" ++ nl
          ++ u "  /disconnect — отключить платформу" ++ nl
          ++ u "  /status — статус подключений" ++ nl ++ nl
          ++ u "<b>Как пользоваться:</b>" ++ nl
          ++ u "1. Подключи аккаунты через /connect" ++ nl
          ++ u "2. Отправь видео или нажми /post" ++ nl
          ++ u "3. Введи заголовок и описание" ++ nl
          ++ u "4. Выбери платформы" ++ nl
          ++ u "5. Нажми Опубликовать" ++ nl ++ nl
          ++ u "<b>Поддерживаемые платформы:</b>" ++ nl
          ++ u "  ▶️ YouTube Shorts" ++ nl
          ++ u "  📱 VK Clips" ++ nl
          ++ u "  📸 Instagram Reels" ++ nl
          ++ u "  🎵 TikTok") None.

(** ** Dispatch

    The router of the bot: an update is offered to the handlers of its
    kind and the first whose filters hold is run on it; an update no handler
    takes is dropped. *)

Inductive update : Type :=
| OnMessage (m : message)
| OnCallback (data : str).

Definition route (st : option UploadFlow) (upd : update) : option target :=
  match upd with
  | OnMessage m => route_message st m
  | OnCallback data => route_callback st data
  end.

Definition run_handler (env : collaborators) (user_id : Z) (t : target)
    (upd : update) : handler unit :=
  match t, upd with
  | to_cmd_start, _ => cmd_start user_id
  | to_cmd_status, _ => cmd_status user_id
  | to_cmd_connect, _ => cmd_connect user_id
  | to_cmd_disconnect, _ => cmd_disconnect user_id
  | to_cmd_post, _ => cmd_post
  | to_handle_auth_text, OnMessage (TextMessage text _) =>
      handle_auth_text env user_id text
  | to_handle_video, OnMessage (VideoMessage file_id file_size) =>
      handle_video file_id file_size
  | to_handle_video_note, _ => handle_video_note
  | to_handle_title, OnMessage (TextMessage text _) => handle_title env text
  | to_handle_description, OnMessage (TextMessage text _) =>
      handle_description user_id text
  | to_cmd_help, _ => cmd_help
  | to_connect_platform, OnCallback data => connect_platform env data
  | to_disconnect_platform, OnCallback data => disconnect_platform user_id data
  | to_toggle_platform, OnCallback data => toggle_platform user_id data
  | to_publish, OnCallback _ => publish env user_id
  | _, _ => ret tt
  end.

Definition dispatch (env : collaborators) (user_id : Z) (upd : update)
  : handler unit :=
  fun w =>
    match route (fsm_state w) upd with
    | Some t => run_handler env user_id t upd w
    | None => (Ok tt, w)
    end.

(** ** Well-formed worlds

    What the handlers keep true of the token file and of the conversation,
    as long as the callback data they receive comes from the buttons the bot
    itself shows. *)

(** A user's token dict: no platform twice, registered platforms only. *)
Definition user_tokens_ok (tokens : user_tokens) : Prop :=
  NoDup (dict_keys tokens) /\ Forall registered (dict_keys tokens).

Definition store_ok (w : world) : Prop :=
  forall user_id, user_tokens_ok (tokens_of (load_tokens w) user_id).

Definition selection_ok (w : world) : Prop :=
  match selected_platforms (fsm_data w) with
  | Some selected => NoDup selected /\ Forall registered selected
  | None => True
  end.

(** The states entered only after a video was accepted. *)
Definition past_video (st : option UploadFlow) : bool :=
  match st with
  | Some waiting_title | Some waiting_description | Some choosing_platforms =>
      true
  | _ => false
  end.

Definition asset_ok (w : world) : Prop :=
  past_video (fsm_state w) = true -> video_file_id (fsm_data w) <> None.

Definition well_formed (w : world) : Prop :=
  store_ok w /\ selection_ok w /\ asset_ok w.


(** The buttons of a keyboard, row by row. *)
Definition buttons_of (kb : keyboard) : list button := List.concat kb.

(** The keyboards sent or edited in, oldest first. *)
Fixpoint keyboards (t : list event) : list keyboard :=
  match t with
  | [] => []
  | Answer _ (Some kb) :: rest => kb :: keyboards rest
  | EditReplyMarkup (Some kb) :: rest => kb :: keyboards rest
  | _ :: rest => keyboards rest
  end.

(** The token stored for [platform] of [user_id]. *)
Definition stored_token (w : world) (user_id : Z) (platform : str)
  : option jvalue :=
  dict_get eqb (tokens_of (load_tokens w) user_id) platform.


(** The upload calls of a trace, with their arguments. *)
Fixpoint upload_calls (t : list event)
  : list (str * (str * str * str * jvalue)) :=
  match t with
  | [] => []
  | UploadCall p_id path vt vd td :: rest =>
      (p_id, (path, vt, vd, td)) :: upload_calls rest
  | _ :: rest => upload_calls rest
  end.

(** A user with no token at all, and a world of theirs in the middle of the
    flow. *)
Definition new_user : Z := 8.

Definition describing_world : world :=
  {| tokens_file := Some sample_tokens;
     fsm_state := Some waiting_description;
     fsm_data := with_title (u "Demo") (with_video (u "BAACAgIAAx") 1048576 empty_data);
     trace := [] |}.

(** The publish button pressed with everything deselected. *)
Definition nothing_selected_world : world :=
  {| tokens_file := Some sample_tokens;
     fsm_state := Some choosing_platforms;
     fsm_data := with_selected [] (fsm_data choosing_world);
     trace := [] |}.

(** A context in [choosing_platforms] that lost its asset reference. *)
Definition no_asset_world : world :=
  {| tokens_file := Some sample_tokens;
     fsm_state := Some choosing_platforms;
     fsm_data := with_selected [u "youtube"] empty_data;
     trace := [] |}.

(** The world with another content of the token file. *)
Definition with_tokens_file (file : option tokens_db) (w : world) : world :=
  {| tokens_file := file; fsm_state := fsm_state w; fsm_data := fsm_data w;
     trace := trace w |}.

(** A conversation: the updates are dispatched one after the other; an
    exception leaves its handler and the next update finds the world as that
    handler left it. *)
Fixpoint run_updates (env : collaborators) (user_id : Z) (upds : list update)
    (w : world) : list (outcome unit) * world :=
  match upds with
  | [] => ([], w)
  | upd :: rest =>
      let (r, w1) := dispatch env user_id upd w in
      let (rs, w2) := run_updates env user_id rest w1 in
      (r :: rs, w2)
  end.

(** * Properties *)

Arguments u : simpl never.
Arguments add_trace : simpl never.
Arguments cleared : simpl never.

(** ** Strings and lists *)

Example u_ascii : u "vk" = [118; 107]%N.
Proof. reflexivity. Qed.

Example u_cyrillic : u "Я" = [1071]%N.
Proof. reflexivity. Qed.

Example u_emoji : u "🎵" = [127925]%N.
Proof. reflexivity. Qed.

Example strip_spaces : strip (u "  a b ") = u "a b".
Proof. reflexivity. Qed.

Example remove_all_prefix : remove_all (u "toggle_vk") (u "toggle_") = u "vk".
Proof. reflexivity. Qed.

Example split_login :
  split_maxsplit1 (u "bob  s3cret x") = [u "bob"; u "s3cret x"].
Proof. reflexivity. Qed.

Example search_token :
  search_access_token
    (u "https://oauth.vk.com/blank.html#access_token=abc&expires_in=0")
  = Some (u "abc").
Proof. reflexivity. Qed.

Example search_token_empty : search_access_token (u "access_token=&x") = None.
Proof. reflexivity. Qed.

Lemma eqb_eq (a b : str) : eqb a b = true <-> a = b.
Proof. unfold eqb; destruct (str_eq_dec a b); split; congruence. Qed.

Lemma eqb_neq (a b : str) : eqb a b = false <-> a <> b.
Proof. unfold eqb; destruct (str_eq_dec a b); split; congruence. Qed.

Lemma eqb_refl (a : str) : eqb a a = true.
Proof. apply eqb_eq; reflexivity. Qed.

Lemma mem_In (x : str) (l : list str) : mem x l = true <-> In x l.
Proof. unfold mem; destruct (in_dec str_eq_dec x l); split; congruence. Qed.

Lemma mem_not_In (x : str) (l : list str) : mem x l = false <-> ~ In x l.
Proof. unfold mem; destruct (in_dec str_eq_dec x l); split; congruence. Qed.

Lemma lstrip_split (s : str) : exists l, s = l ++ lstrip s /\ all_space l.
Proof.
  induction s as [|c s IH]; cbn.
  - exists []; split; [reflexivity | constructor].
  - destruct (isspace c) eqn:E.
    + destruct IH as (l & Hs & Hl). exists (c :: l); split.
      * cbn; congruence.
      * constructor; assumption.
    + exists []; split; [reflexivity | constructor].
Qed.

Lemma lstrip_head (s : str) (c : char) (rest : str) :
  lstrip s = c :: rest -> isspace c = false.
Proof.
  induction s as [|a s IH]; cbn; [discriminate|].
  destruct (isspace a) eqn:E; [exact IH|].
  intros H; injection H as -> _; exact E.
Qed.

Lemma rstrip_split (s : str) : exists r, s = rstrip s ++ r /\ all_space r.
Proof.
  unfold rstrip. destruct (lstrip_split (rev s)) as (l & Hs & Hl).
  exists (rev l); split.
  - rewrite <- rev_app_distr, <- Hs, rev_involutive; reflexivity.
  - apply Forall_rev; exact Hl.
Qed.

Lemma rstrip_last (s : str) (c : char) (front : str) :
  rstrip s = front ++ [c] -> isspace c = false.
Proof.
  unfold rstrip; intros H.
  apply (f_equal (@rev _)) in H. rewrite rev_involutive, rev_app_distr in H.
  cbn in H. eapply lstrip_head; exact H.
Qed.

(** [strip] removes a run of whitespace at each end and nothing else. *)
Lemma strip_split (s : str) :
  exists l r, s = l ++ strip s ++ r /\ all_space l /\ all_space r.
Proof.
  unfold strip.
  destruct (lstrip_split s) as (l & Hs & Hl).
  destruct (rstrip_split (lstrip s)) as (r & Ht & Hr).
  exists l, r; repeat split; try assumption.
  rewrite <- Ht; exact Hs.
Qed.

Lemma strip_trimmed (s : str) : trimmed (strip s).
Proof.
  split; intros c r H.
  - destruct (rstrip_split (lstrip s)) as (r' & Ht & _).
    fold (strip s) in Ht. rewrite H in Ht. cbn in Ht.
    eapply lstrip_head; exact Ht.
  - eapply rstrip_last; exact H.
Qed.

(** ** Worlds and traces *)

Lemma add_trace_nil (w : world) : add_trace [] w = w.
Proof. destruct w; unfold add_trace; cbn; rewrite app_nil_r; reflexivity. Qed.

Lemma add_trace_add_trace (a b : list event) (w : world) :
  add_trace b (add_trace a w) = add_trace (a ++ b) w.
Proof. unfold add_trace; cbn; rewrite app_assoc; reflexivity. Qed.

Lemma upload_attempts_app (a b : list event) :
  upload_attempts (a ++ b) = upload_attempts a ++ upload_attempts b.
Proof.
  induction a as [|e a IH]; [reflexivity|].
  destruct e; cbn; rewrite ?IH; reflexivity.
Qed.

Lemma removals_app (path : str) (a b : list event) :
  removals path (a ++ b) = removals path a + removals path b.
Proof.
  induction a as [|e a IH]; [reflexivity|].
  destruct e; cbn; rewrite ?IH; try reflexivity.
  apply Nat.add_assoc.
Qed.

Lemma status_texts_app (a b : list event) :
  status_texts (a ++ b) = status_texts a ++ status_texts b.
Proof.
  induction a as [|e a IH]; [reflexivity|].
  destruct e; cbn; rewrite ?IH; reflexivity.
Qed.

(** ** Routing *)



(** ** Video delivery *)




Example pending_connection_example :
  let w := world_after (connect_platform sample_env (u "connect_youtube"))
             initial_world in
  fsm_state w = Some waiting_video
  /\ connecting (fsm_data w) = Some (u "youtube")
  /\ route_message (fsm_state w) (TextMessage (u "4/0AX4XfWh") None)
     = Some to_handle_auth_text.
Proof. vm_compute. auto. Qed.


(** ** Title *)

Lemma placeholder_nonempty (env : collaborators) : placeholder_title env <> [].
Proof. unfold placeholder_title; vm_compute; discriminate. Qed.

(** C4, counterexample.  The title [" Demo "] is not [-], yet it is not
    stored as typed. *)
Lemma title_not_stored_verbatim :
  ~ title_as_specified sample_env choosing_world (u " Demo ").
Proof.
  intros [_ H].
  assert (Hne : u " Demo " <> u "-") by (vm_compute; discriminate).
  specialize (H Hne). vm_compute in H. discriminate H.
Qed.

(** C4, amended.  The text is first stripped of the whitespace at its two
    ends: [message_text = l ++ t ++ r] with [l] and [r] whitespace and [t]
    trimmed.  If [t] is [-] the title is the placeholder ["Video "] followed
    by the time stamp, which is not empty; otherwise the title is [t] as it
    is.  The conversation moves to [waiting_description]. *)
Theorem handle_title_stores_stripped_text (env : collaborators) (w : world)
    (message_text : str) :
  let w' := world_after (handle_title env message_text) w in
  exists l t r,
    message_text = l ++ t ++ r /\ all_space l /\ all_space r /\ trimmed t
    /\ title (fsm_data w')
       = Some (if eqb t (u "-") then u "Video " ++ now_strftime env else t)
    /\ u "Video " ++ now_strftime env <> []
    /\ fsm_state w' = Some waiting_description.
Proof.
  destruct (strip_split message_text) as (l & r & Hs & Hl & Hr).
  exists l, (strip message_text), r.
  repeat split; try assumption; try apply strip_trimmed.
  apply placeholder_nonempty.
Qed.

Example title_dash :
  title (fsm_data (world_after (handle_title sample_env (u " - ")) choosing_world))
  = Some (u "Video 2024-05-06 07:08").
Proof. reflexivity. Qed.

(** ** Platform selection *)

Lemma list_remove_app_notin (p : str) (l : list str) :
  ~ In p l -> list_remove p (l ++ [p]) = l.
Proof.
  induction l as [|y l IH]; cbn; intros H.
  - rewrite eqb_refl; reflexivity.
  - destruct (eqb y p) eqn:E.
    + apply eqb_eq in E; subst; tauto.
    + f_equal; apply IH; tauto.
Qed.

Lemma list_remove_perm (p : str) (l : list str) :
  In p l -> Permutation (p :: list_remove p l) l.
Proof.
  induction l as [|y l IH]; cbn; intros H; [tauto|].
  destruct (eqb y p) eqn:E.
  - apply eqb_eq in E; subst; reflexivity.
  - apply eqb_neq in E. destruct H as [H|H]; [congruence|].
    rewrite perm_swap. constructor. exact (IH H).
Qed.

(** Toggling twice gives back the same platforms; the list itself comes
    back when the platform was not selected, and with the platform moved to
    the end when it was. *)
Lemma toggle_twice (p : str) (l : list str) :
  NoDup l ->
  Permutation (toggle p (toggle p l)) l
  /\ (~ In p l -> toggle p (toggle p l) = l)
  /\ (In p l -> toggle p (toggle p l) = list_remove p l ++ [p]).
Proof.
  intros Hnd. destruct (mem p l) eqn:E.
  - assert (H1 : toggle p l = list_remove p l)
      by (unfold toggle; rewrite E; reflexivity).
    apply mem_In in E. pose proof (@list_remove_perm p l E) as HP.
    assert (Hn : ~ In p (list_remove p l)).
    { apply Permutation_sym in HP. pose proof (Permutation_NoDup HP Hnd) as H.
      inversion H; assumption. }
    rewrite H1. unfold toggle. apply mem_not_In in Hn. rewrite Hn.
    split; [|split; [tauto | reflexivity]].
    rewrite <- HP at 2. rewrite Permutation_app_comm. reflexivity.
  - assert (H1 : toggle p l = l ++ [p])
      by (unfold toggle; rewrite E; reflexivity).
    apply mem_not_In in E. rewrite H1. unfold toggle.
    assert (H : mem p (l ++ [p]) = true).
    { apply mem_In, in_or_app; right; left; reflexivity. }
    rewrite H, (@list_remove_app_notin p l E).
    split; [reflexivity | split; [reflexivity | tauto]].
Qed.

Lemma toggle_NoDup (p : str) (l : list str) : NoDup l -> NoDup (toggle p l).
Proof.
  intros Hnd. unfold toggle. destruct (mem p l) eqn:E.
  - apply mem_In in E. pose proof (@list_remove_perm p l E) as HP.
    apply Permutation_sym in HP. pose proof (Permutation_NoDup HP Hnd) as H.
    inversion H; assumption.
  - apply mem_not_In in E.
    apply (Permutation_NoDup (Permutation_app_comm [p] l)).
    constructor; assumption.
Qed.

(** Rendering the keyboard reads the registry and changes nothing. *)
Lemma platform_rows_world (selected p_ids : list str) (w : world) :
  snd (platform_rows selected p_ids w) = w.
Proof.
  induction p_ids as [|p_id rest IH]; [reflexivity|].
  cbn [platform_rows]. unfold bind at 1. unfold platforms_getitem.
  destruct (dict_get eqb PLATFORMS p_id) as [p_info|]; [|reflexivity].
  unfold ret at 1. unfold bind.
  destruct (platform_rows selected rest w) as [[rows|e] w1];
    cbn in IH; subst w1; reflexivity.
Qed.

Lemma toggle_platform_run (user_id : Z) (data : str) (w : world) :
  exists r evs,
    toggle_platform user_id data w
    = (r, add_trace evs
            {| tokens_file := tokens_file w; fsm_state := fsm_state w;
               fsm_data :=
                 with_selected
                   (toggle (remove_all data (u "toggle_"))
                      (or_default (selected_platforms (fsm_data w)) []))
                   (fsm_data w);
               trace := trace w |}).
Proof.
  unfold toggle_platform.
  unfold bind at 1. unfold get_data.
  unfold bind at 1. unfold update_data.
  unfold bind at 1. unfold get_user_tokens.
  unfold bind at 1.
  match goal with
  | |- context [platform_rows ?s ?k ?w0] =>
      pose proof (platform_rows_world s k w0) as Hw;
      destruct (platform_rows s k w0) as [[rows|e] w1]
  end; cbn in Hw; subst w1.
  - unfold bind, emit. rewrite add_trace_add_trace. eauto.
  - exists (Raised e), []. rewrite add_trace_nil. reflexivity.
Qed.

Lemma toggle_platform_world (user_id : Z) (data : str) (w : world) :
  let w' := world_after (toggle_platform user_id data) w in
  fsm_data w'
  = with_selected (toggle (remove_all data (u "toggle_"))
                     (or_default (selected_platforms (fsm_data w)) []))
      (fsm_data w)
  /\ fsm_state w' = fsm_state w
  /\ tokens_file w' = tokens_file w.
Proof.
  unfold world_after.
  destruct (toggle_platform_run user_id data w) as (r & evs & ->).
  repeat split.
Qed.

(** C5.  With the selection a set of platforms (a list without
    repetition), two toggles of the same platform leave the same set
    selected: the list stored after them has the members of the list stored
    before, each once.  The conversation state is as it was. *)
Theorem toggle_twice_restores_selection (user_id : Z) (data : str) (w : world)
    (selected : list str) :
  selected_platforms (fsm_data w) = Some selected ->
  NoDup selected ->
  let w2 := world_after (toggle_platform user_id data)
              (world_after (toggle_platform user_id data) w) in
  exists selected2,
    selected_platforms (fsm_data w2) = Some selected2
    /\ NoDup selected2
    /\ Permutation selected2 selected
    /\ (forall p_id, In p_id selected2 <-> In p_id selected)
    /\ fsm_state w2 = fsm_state w.
Proof.
  intros Hs Hnd. cbn zeta.
  destruct (toggle_platform_world user_id data w) as (D1 & S1 & _).
  destruct (toggle_platform_world user_id data
              (world_after (toggle_platform user_id data) w)) as (D2 & S2 & _).
  rewrite D2, D1, Hs, S2, S1. cbn [with_selected selected_platforms or_default].
  destruct (@toggle_twice (remove_all data (u "toggle_")) selected Hnd)
    as (HP & _).
  eexists; split; [reflexivity|]. repeat split.
  - apply toggle_NoDup, toggle_NoDup, Hnd.
  - exact HP.
  - apply Permutation_in; exact HP.
  - apply Permutation_in; symmetry; exact HP.
Qed.

Lemma toggle_twice_restores_selection_witness :
  let w2 := world_after (toggle_platform sample_user (u "toggle_vk"))
              (world_after (toggle_platform sample_user (u "toggle_vk"))
                 choosing_world) in
  exists selected2,
    selected_platforms (fsm_data w2) = Some selected2
    /\ NoDup selected2
    /\ Permutation selected2 [u "youtube"; u "vk"; u "instagram"]
    /\ (forall p_id, In p_id selected2
                     <-> In p_id [u "youtube"; u "vk"; u "instagram"])
    /\ fsm_state w2 = fsm_state choosing_world.
Proof.
  apply (@toggle_twice_restores_selection sample_user (u "toggle_vk")
           choosing_world [u "youtube"; u "vk"; u "instagram"]).
  - reflexivity.
  - repeat constructor; vm_compute; intuition discriminate.
Defined.

Example toggle_moves_to_the_end :
  selected_platforms
    (fsm_data (world_after (toggle_platform sample_user (u "toggle_youtube"))
                 (world_after (toggle_platform sample_user (u "toggle_youtube"))
                    choosing_world)))
  = Some [u "vk"; u "instagram"; u "youtube"].
Proof. reflexivity. Qed.

(** ** The selection is a set

    The selection starts as the keys of the user's token dict and is then
    only changed by [toggle]: it never holds a platform twice. *)



Lemma handle_description_selects_connected (user_id : Z) (message_text : str)
    (w : world) :
  tokens_of (load_tokens w) user_id <> [] ->
  selected_platforms
    (fsm_data (world_after (handle_description user_id message_text) w))
  = Some (dict_keys (tokens_of (load_tokens w) user_id)).
Proof.
  intros Hne. unfold world_after, handle_description.
  unfold bind at 1. unfold update_data at 1.
  unfold bind at 1. unfold get_user_tokens, load_tokens. cbn [tokens_file].
  fold (load_tokens w).
  destruct (tokens_of (load_tokens w) user_id) as [|kv rest] eqn:T;
    [congruence|].
  unfold bind at 1. unfold update_data at 1.
  unfold bind at 1.
  match goal with
  | |- context [platform_rows ?s ?k ?w0] =>
      pose proof (platform_rows_world s k w0) as Hw;
      destruct (platform_rows s k w0) as [[rows|e] w1]
  end; cbn in Hw; subst w1; reflexivity.
Qed.

(** ** Credential input *)

Lemma handle_auth_text_connecting (env : collaborators) (user_id : Z)
    (message_text p : str) (w : world) :
  connecting (fsm_data w) = Some p -> p <> [] ->
  handle_auth_text env user_id message_text w
  = (credential_step env user_id p (strip message_text) ;; state_clear) w.
Proof.
  intros Hc Hp. unfold handle_auth_text. unfold bind at 1. unfold get_data.
  destruct p as [|c p']; [congruence|]. rewrite Hc. reflexivity.
Qed.

(** A failed attempt answers with the cause and does nothing else. *)
Lemma credential_step_fails (env : collaborators) (user_id : Z)
    (p text : str) (w : world) :
  exchange_fails env text p ->
  exists cause,
    credential_step env user_id p text w = (Ok tt, add_trace [Answer cause None] w).
Proof.
  intros [e He | Hvk | Hig | username password e Hsplit He | e He].
  - change (credential_step env user_id (u "youtube") text)
      with (exchange_and_store user_id (u "youtube")
              (youtube_exchange_code env text)
              (u "✅ YouTube подключён!") (u "❌ Ошибка: ")).
    rewrite He. eexists; reflexivity.
  - change (credential_step env user_id (u "vk") text)
      with (if contains text (u "access_token=") then
              match search_access_token text with
              | Some token =>
                  set_user_token user_id (u "vk")
                    (JObj [(u "access_token", JStr token)]) ;;
                  answer (u "✅ VK подключён!") None
              | None => answer (u "❌ Не удалось извлечь токен из ссылки") None
              end
            else answer (u "❌ Отправь полную ссылку из адресной строки") None).
    destruct (contains text (u "access_token=")) eqn:C.
    + destruct Hvk as [Hvk|Hvk]; [discriminate|]. rewrite Hvk.
      eexists; reflexivity.
    + eexists; reflexivity.
  - change (credential_step env user_id (u "instagram") text)
      with (match split_maxsplit1 text with
            | [username; password] =>
                match instagram_login env username password with
                | Returns result =>
                    set_user_token user_id (u "instagram")
                      (JObj [(u "username", JStr username);
                             (u "session", result)]) ;;
                    answer (u "✅ Instagram подключён!") None
                | Raises e => answer (u "❌ Ошибка входа: " ++ e) None
                end
            | _ => answer (u "Отправь логин и пароль через пробел") None
            end).
    destruct (split_maxsplit1 text) as [|a [|b [|c l]]] eqn:S;
      try (eexists; reflexivity).
    exfalso; exact (Hig a b eq_refl).
  - change (credential_step env user_id (u "instagram") text)
      with (match split_maxsplit1 text with
            | [username; password] =>
                match instagram_login env username password with
                | Returns result =>
                    set_user_token user_id (u "instagram")
                      (JObj [(u "username", JStr username);
                             (u "session", result)]) ;;
                    answer (u "✅ Instagram подключён!") None
                | Raises e => answer (u "❌ Ошибка входа: " ++ e) None
                end
            | _ => answer (u "Отправь логин и пароль через пробел") None
            end).
    rewrite Hsplit, He. eexists; reflexivity.
  - change (credential_step env user_id (u "tiktok") text)
      with (exchange_and_store user_id (u "tiktok")
              (tiktok_exchange_code env text)
              (u "✅ TikTok подключён!") (u "❌ Ошибка: ")).
    rewrite He. eexists; reflexivity.
Qed.

Lemma exchange_fails_nonempty (env : collaborators) (text p : str) :
  exchange_fails env text p -> p <> [].
Proof. intros []; vm_compute; discriminate. Qed.

(** C7.  While platform [p] is being connected, a credential input whose
    exchange fails leaves the token file exactly as it was, for every user
    and platform; the cause is answered, and the conversation is reset: no
    state, empty context. *)
Theorem failed_exchange_leaves_store (env : collaborators) (user_id : Z)
    (w : world) (p message_text : str) :
  connecting (fsm_data w) = Some p ->
  exchange_fails env (strip message_text) p ->
  let w' := world_after (handle_auth_text env user_id message_text) w in
  result_of (handle_auth_text env user_id message_text) w = Ok tt
  /\ tokens_file w' = tokens_file w
  /\ (forall user platform,
        dict_get eqb (tokens_of (load_tokens w') user) platform
        = dict_get eqb (tokens_of (load_tokens w) user) platform)
  /\ fsm_state w' = None
  /\ fsm_data w' = empty_data
  /\ exists cause, trace w' = trace w ++ [Answer cause None].
Proof.
  intros Hc Hf. cbn zeta. unfold world_after, result_of.
  rewrite (@handle_auth_text_connecting env user_id message_text p w Hc
             (@exchange_fails_nonempty env (strip message_text) p Hf)).
  unfold bind.
  destruct (@credential_step_fails env user_id p (strip message_text) w Hf)
    as (cause & ->).
  unfold state_clear. cbn [fst snd].
  repeat split. exists cause; reflexivity.
Qed.

Lemma failed_exchange_leaves_store_witness :
  let w' := world_after (handle_auth_text sample_env sample_user (u " 4/0AX4XfWh "))
              connecting_world in
  result_of (handle_auth_text sample_env sample_user (u " 4/0AX4XfWh "))
    connecting_world = Ok tt
  /\ tokens_file w' = tokens_file connecting_world
  /\ (forall user platform,
        dict_get eqb (tokens_of (load_tokens w') user) platform
        = dict_get eqb (tokens_of (load_tokens connecting_world) user) platform)
  /\ fsm_state w' = None
  /\ fsm_data w' = empty_data
  /\ exists cause, trace w' = trace connecting_world ++ [Answer cause None].
Proof.
  apply (@failed_exchange_leaves_store sample_env sample_user connecting_world
           (u "youtube") (u " 4/0AX4XfWh ")).
  - reflexivity.
  - apply youtube_rejects with (e := u "invalid_grant"). reflexivity.
Defined.

(** An exchange that succeeds does write the record. *)
Example successful_exchange_stores :
  let w := {| tokens_file := None; fsm_state := Some waiting_video;
              fsm_data := with_connecting (u "vk") empty_data; trace := [] |} in
  tokens_file
    (world_after
       (handle_auth_text sample_env sample_user
          (u "https://oauth.vk.com/blank.html#access_token=abc&expires_in=0"))
       w)
  = Some [(sample_user, [(u "vk", JObj [(u "access_token", JStr (u "abc"))])])].
Proof. reflexivity. Qed.

(** ** The publish loop *)

Lemma is_registered_iff (p_id : str) : is_registered p_id = true <-> registered p_id.
Proof.
  unfold is_registered, dict_has, registered.
  destruct (dict_get eqb PLATFORMS p_id); split; congruence.
Qed.

Lemma first_unregistered_cons (p_id : str) (rest : list str) :
  first_unregistered (p_id :: rest)
  = if is_registered p_id then first_unregistered rest else Some p_id.
Proof.
  unfold first_unregistered; cbn [find].
  destruct (is_registered p_id); reflexivity.
Qed.

Lemma all_registered (selected : list str) :
  Forall registered selected ->
  first_unregistered selected = None /\ registered_prefix selected = selected.
Proof.
  induction 1 as [|p_id rest Hp _ [IH1 IH2]]; [split; reflexivity|].
  apply is_registered_iff in Hp.
  rewrite first_unregistered_cons. cbn [registered_prefix]. rewrite Hp.
  split; congruence.
Qed.

Section Loop.

Variables (env : collaborators) (tokens : user_tokens).
Variables (local_path video_title video_description : str).

Let successes' := successes env tokens local_path video_title video_description.
Let failures' := failures env tokens local_path video_title video_description.
Let loop_events' :=
  loop_events env tokens local_path video_title video_description.

(** The loop stops at the first identifier the registry does not know, by
    the [KeyError] of the lookup; up to there every platform is shown,
    called once, and contributes one line according to its own answer. *)
Lemma upload_each_run (selected results errors : list str) (w : world) :
  upload_each env tokens local_path video_title video_description
    selected results errors w
  = (match first_unregistered selected with
     | Some p_id => Raised (KeyError p_id)
     | None => Ok (results ++ successes' selected, errors ++ failures' selected)
     end,
     add_trace (loop_events' (registered_prefix selected)) w).
Proof.
  subst successes' failures' loop_events'.
  revert results errors w.
  induction selected as [|p_id rest IH]; intros results errors w.
  - cbn. rewrite !app_nil_r, add_trace_nil. reflexivity.
  - rewrite first_unregistered_cons.
    cbn [upload_each registered_prefix].
    unfold bind at 1. unfold platforms_getitem.
    assert (R : is_registered p_id
                = match dict_get eqb PLATFORMS p_id with
                  | Some _ => true
                  | None => false
                  end) by reflexivity.
    rewrite R; clear R.
    unfold successes, failures, loop_events in *. cbn [flat_map].
    unfold success_of at 1. unfold failure_of at 1.
    destruct (dict_get eqb PLATFORMS p_id) as [p_info|] eqn:E.
    + cbn [ret flat_map]. unfold attempt_events at 1. rewrite E.
      unfold bind, emit, upload_answer.
      destruct (uploader_upload env p_id local_path video_title
                  video_description _) as [url|e] eqn:U;
        rewrite IH, !add_trace_add_trace, <- !app_assoc; reflexivity.
    + cbn [raise flat_map]. rewrite add_trace_nil. reflexivity.
Qed.

Lemma loop_attempts (selected : list str) :
  Forall registered selected ->
  upload_attempts (loop_events' selected) = selected.
Proof.
  subst loop_events'. unfold loop_events.
  induction 1 as [|p_id rest Hp _ IH]; [reflexivity|].
  cbn [flat_map]. rewrite upload_attempts_app, IH.
  unfold attempt_events, registered in *.
  destruct (dict_get eqb PLATFORMS p_id); [|congruence].
  destruct (upload_answer _ _ _ _ _ _); reflexivity.
Qed.

Lemma loop_removes_nothing (path : str) (selected : list str) :
  removals path (loop_events' selected) = 0.
Proof.
  subst loop_events'. unfold loop_events.
  induction selected as [|p_id rest IH]; [reflexivity|].
  cbn [flat_map]. rewrite removals_app, IH.
  unfold attempt_events.
  destruct (dict_get eqb PLATFORMS p_id); [|reflexivity].
  destruct (upload_answer _ _ _ _ _ _); reflexivity.
Qed.



End Loop.

Lemma in_report_lines (results errors : list str) (line : str) :
  In line results \/ In line errors -> In line (report_lines results errors).
Proof.
  unfold report_lines. intros [H|H].
  - apply in_or_app; right; apply in_or_app; left.
    destruct results; [destruct H | exact H].
  - apply in_or_app; right; apply in_or_app; right.
    destruct errors; [destruct H | right; exact H].
Qed.

(** ** Publish *)

(** [publish] with something selected, an asset recorded and a download
    that succeeds: either the loop meets an unregistered identifier and the
    [KeyError] leaves the handler as the loop left things, or every
    platform is attempted, the file is removed, the report is shown and the
    conversation is cleared.  The answer of [os.remove] appears nowhere. *)
Lemma publish_run (env : collaborators) (user_id : Z) (w : world)
    (selected : list str) (file_id : str) :
  selected_platforms (fsm_data w) = Some selected -> selected <> [] ->
  video_file_id (fsm_data w) = Some file_id ->
  bot_download env file_id (local_path_of env) = Returns tt ->
  let tokens := publish_tokens user_id w in
  let path := local_path_of env in
  let t := publish_title w in
  let d := publish_description w in
  let loop := loop_events env tokens path t d (registered_prefix selected) in
  publish env user_id w =
  match first_unregistered selected with
  | Some p_id =>
      (Raised (KeyError p_id),
       add_trace (publish_prologue env file_id ++ loop) w)
  | None =>
      (Ok tt,
       cleared
         (add_trace
            (publish_prologue env file_id ++ loop ++
             [ OsRemove path;
               EditText (join nl (report_lines
                                    (successes env tokens path t d selected)
                                    (failures env tokens path t d selected))) ])
            w))
  end.
Proof.
  intros Hs Hne Hf Hd. cbn zeta.
  unfold publish, publish_tokens, publish_title, publish_description.
  unfold bind at 1. unfold get_data. rewrite Hs.
  cbn [or_default]. destruct selected as [|p rest]; [congruence|].
  set (sel := p :: rest) in *.
  unfold bind at 1. unfold emit at 1. unfold bind at 1. unfold answer, emit at 1.
  unfold bind at 1. unfold get_user_tokens.
  unfold bind at 1. rewrite Hf. unfold ret at 1.
  unfold bind at 1. unfold emit at 1. rewrite Hd.
  unfold bind at 1. rewrite upload_each_run.
  rewrite !add_trace_add_trace.
  destruct (first_unregistered sel) as [q|].
  - cbn. reflexivity.
  - cbn [fst snd app]. unfold bind, emit.
    destruct (os_remove env (local_path_of env)); unfold ret, state_clear;
      rewrite !add_trace_add_trace; unfold cleared; cbn;
      rewrite <- ?app_assoc; reflexivity.
Qed.

Lemma final_report_publish (w : world) (before loop : list event)
    (path text : str) :
  final_report
    (cleared (add_trace (before ++ loop ++ [OsRemove path; EditText text]) w))
  = text.
Proof.
  unfold final_report, cleared, add_trace. cbn [trace].
  rewrite !status_texts_app. cbn [status_texts].
  rewrite !app_assoc. apply last_last.
Qed.

(** C1, counterexample.  YouTube, VK and Instagram are selected in this
    order, VK's upload raises and the two others return a link: the report
    shown is not the list of the three outcomes in the order of the
    attempts. *)
Lemma report_not_in_attempt_order :
  selected_platforms (fsm_data choosing_world)
  = Some [u "youtube"; u "vk"; u "instagram"]
  /\ publish_upload sample_env sample_user choosing_world (u "youtube")
     = Returns (Some (u "https://video.example/youtube"))
  /\ publish_upload sample_env sample_user choosing_world (u "vk")
     = Raises (u "upload refused")
  /\ publish_upload sample_env sample_user choosing_world (u "instagram")
     = Returns (Some (u "https://video.example/instagram"))
  /\ final_report (world_after (publish sample_env sample_user) choosing_world)
     <> join nl
          (report_in_attempt_order sample_env
             (publish_tokens sample_user choosing_world)
             (local_path_of sample_env) (publish_title choosing_world)
             (publish_description choosing_world)
             [u "youtube"; u "vk"; u "instagram"]).
Proof.
  repeat split; try reflexivity.
  vm_compute. discriminate.
Qed.

Example report_of_sample_run :
  final_report (world_after (publish sample_env sample_user) choosing_world)
  = u "<b>📊 Результат публикации:</b>" ++ nl ++ nl
    ++ u "▶️ YouTube Shorts: ✅ https://video.example/youtube" ++ nl
    ++ u "📸 Instagram Reels: ✅ https://video.example/instagram" ++ nl
    ++ nl
    ++ u "📱 VK Clips: ❌ upload refused".
Proof. reflexivity. Qed.

(** C1, amended.  With platforms [A; B; C] selected, all registered, where
    B's upload raises and A's and C's return: the three uploads are
    attempted in the order A, B, C, and the final report has exactly three
    per-platform lines, grouped by result: the header, the success lines of
    A and C in attempt order with their links, an empty line, then the
    failure line of B. *)
Theorem publish_report_successes_then_failures (env : collaborators)
    (user_id : Z) (w : world) (A B C file_id : str)
    (info_A info_B info_C : platform_info) (url_A url_C : option str)
    (e : str) :
  selected_platforms (fsm_data w) = Some [A; B; C] ->
  video_file_id (fsm_data w) = Some file_id ->
  bot_download env file_id (local_path_of env) = Returns tt ->
  dict_get eqb PLATFORMS A = Some info_A ->
  dict_get eqb PLATFORMS B = Some info_B ->
  dict_get eqb PLATFORMS C = Some info_C ->
  publish_upload env user_id w A = Returns url_A ->
  publish_upload env user_id w B = Raises e ->
  publish_upload env user_id w C = Returns url_C ->
  let w' := world_after (publish env user_id) w in
  result_of (publish env user_id) w = Ok tt
  /\ upload_attempts (trace w') = upload_attempts (trace w) ++ [A; B; C]
  /\ final_report w'
     = join nl [ report_header;
                 success_line info_A url_A; success_line info_C url_C;
                 [];
                 failure_line info_B e ].
Proof.
  intros Hs Hf Hd HA HB HC UA UB UC. cbn zeta.
  assert (Hreg : Forall registered [A; B; C])
    by (repeat constructor; unfold registered; congruence).
  destruct (all_registered Hreg) as [Hnone Hpre].
  unfold world_after, result_of.
  rewrite (@publish_run env user_id w [A; B; C] file_id Hs
             ltac:(discriminate) Hf Hd).
  rewrite Hnone, Hpre. cbn [fst snd].
  split; [reflexivity|]. split.
  - unfold cleared, add_trace. cbn [trace].
    rewrite !upload_attempts_app, (loop_attempts _ _ _ _ _ Hreg).
    cbn. reflexivity.
  - rewrite final_report_publish.
    unfold successes, failures. cbn [flat_map].
    unfold success_of, failure_of. unfold publish_upload in UA, UB, UC.
    rewrite HA, HB, HC, UA, UB, UC. reflexivity.
Qed.

Lemma publish_report_successes_then_failures_witness :
  let w' := world_after (publish sample_env sample_user) choosing_world in
  result_of (publish sample_env sample_user) choosing_world = Ok tt
  /\ upload_attempts (trace w')
     = upload_attempts (trace choosing_world)
       ++ [u "youtube"; u "vk"; u "instagram"]
  /\ final_report w'
     = join nl
         [ report_header;
           success_line {| name := u "YouTube Shorts"; emoji := u "▶️" |}
             (Some (u "https://video.example/youtube"));
           success_line {| name := u "Instagram Reels"; emoji := u "📸" |}
             (Some (u "https://video.example/instagram"));
           [];
           failure_line {| name := u "VK Clips"; emoji := u "📱" |}
             (u "upload refused") ].
Proof.
  apply (@publish_report_successes_then_failures sample_env sample_user
           choosing_world (u "youtube") (u "vk") (u "instagram")
           (u "BAACAgIAAx")); reflexivity.
Defined.

(** ** Isolation of the platforms *)



(** ** Removal of the local file *)

(** C9.  Under the same conditions, whatever the uploads and [os.remove]
    answer: [publish] returns; after the prologue and the attempts on all
    selected platforms, in which the local file is not removed, comes one
    call of [os.remove] on the local file, followed by the report only.  The
    file is so passed to [os.remove] exactly once, and a failure of that
    call changes neither the result nor anything that follows. *)
Theorem publish_removes_asset_once (env : collaborators) (user_id : Z)
    (w : world) (selected : list str) (file_id : str) :
  selected_platforms (fsm_data w) = Some selected ->
  selected <> [] ->
  Forall registered selected ->
  video_file_id (fsm_data w) = Some file_id ->
  bot_download env file_id (local_path_of env) = Returns tt ->
  let w' := world_after (publish env user_id) w in
  result_of (publish env user_id) w = Ok tt
  /\ (exists attempts report,
        trace w' = trace w ++ publish_prologue env file_id ++ attempts
                   ++ [OsRemove (local_path_of env); EditText report]
        /\ upload_attempts attempts = selected
        /\ removals (local_path_of env)
             (publish_prologue env file_id ++ attempts) = 0)
  /\ removals (local_path_of env) (trace w')
     = removals (local_path_of env) (trace w) + 1
  /\ fsm_state w' = None.
Proof.
  intros Hs Hne Hreg Hf Hd. cbn zeta.
  destruct (all_registered Hreg) as [Hnone Hpre].
  unfold world_after, result_of.
  rewrite (@publish_run env user_id w selected file_id Hs Hne Hf Hd).
  rewrite Hnone, Hpre. cbn [fst snd].
  split; [reflexivity|]. split; [|split; [|reflexivity]].
  - eexists; eexists. split; [reflexivity|]. split.
    + apply loop_attempts; exact Hreg.
    + rewrite removals_app, loop_removes_nothing. reflexivity.
  - unfold cleared, add_trace. cbn [trace].
    rewrite !removals_app, loop_removes_nothing.
    cbn. rewrite eqb_refl. lia.
Qed.

Lemma publish_removes_asset_once_witness :
  os_remove sample_env (local_path_of sample_env)
  = Raises (u "Permission denied")
  /\ let w' := world_after (publish sample_env sample_user) choosing_world in
     result_of (publish sample_env sample_user) choosing_world = Ok tt
     /\ (exists attempts report,
           trace w' = trace choosing_world
                      ++ publish_prologue sample_env (u "BAACAgIAAx")
                      ++ attempts
                      ++ [OsRemove (local_path_of sample_env); EditText report]
           /\ upload_attempts attempts = [u "youtube"; u "vk"; u "instagram"]
           /\ removals (local_path_of sample_env)
                (publish_prologue sample_env (u "BAACAgIAAx") ++ attempts) = 0)
     /\ removals (local_path_of sample_env) (trace w')
        = removals (local_path_of sample_env) (trace choosing_world) + 1
     /\ fsm_state w' = None.
Proof.
  split; [reflexivity|].
  apply (@publish_removes_asset_once sample_env sample_user choosing_world
           [u "youtube"; u "vk"; u "instagram"] (u "BAACAgIAAx")).
  - reflexivity.
  - discriminate.
  - repeat constructor; vm_compute; discriminate.
  - reflexivity.
  - reflexivity.
Defined.

(** ** Failures outside the loop *)

(** C3.  When the download of the asset raises, the exception leaves
    [publish]: the handler does not return, nothing is uploaded, removed or
    reported, and the conversation stays as it was, in the state and with
    the context it had when the publish button was pressed. *)
Theorem publish_download_failure_escapes (env : collaborators) (user_id : Z)
    (w : world) (selected : list str) (file_id cause : str) :
  selected_platforms (fsm_data w) = Some selected ->
  selected <> [] ->
  video_file_id (fsm_data w) = Some file_id ->
  bot_download env file_id (local_path_of env) = Raises cause ->
  publish env user_id w
  = (Raised (DownloadError cause), add_trace (publish_prologue env file_id) w).
Proof.
  intros Hs Hne Hf Hd.
  unfold publish.
  unfold bind at 1. unfold get_data. rewrite Hs.
  cbn [or_default]. destruct selected as [|p rest]; [congruence|].
  unfold bind at 1. unfold emit at 1. unfold bind at 1. unfold answer, emit at 1.
  unfold bind at 1. unfold get_user_tokens.
  unfold bind at 1. rewrite Hf. unfold ret at 1.
  unfold bind at 1. unfold emit at 1. rewrite Hd.
  unfold raise. rewrite !add_trace_add_trace. reflexivity.
Qed.

Lemma publish_download_failure_escapes_witness :
  publish offline_env sample_user choosing_world
  = (Raised (DownloadError (u "Bad Request: file is too big")),
     add_trace (publish_prologue offline_env (u "BAACAgIAAx")) choosing_world).
Proof.
  apply (@publish_download_failure_escapes offline_env sample_user
           choosing_world [u "youtube"; u "vk"; u "instagram"]
           (u "BAACAgIAAx") (u "Bad Request: file is too big")).
  - reflexivity.
  - discriminate.
  - reflexivity.
  - reflexivity.
Defined.

Example download_failure_leaves_user_waiting :
  let w' := world_after (publish offline_env sample_user) choosing_world in
  fsm_state w' = Some choosing_platforms
  /\ fsm_data w' = fsm_data choosing_world
  /\ upload_attempts (trace w') = []
  /\ status_texts (trace w') = []
  /\ last (trace w') (EditReplyMarkup None)
     = DownloadFile (u "BAACAgIAAx") (local_path_of offline_env).
Proof. vm_compute. repeat split. Qed.


(** ** Unregistered platform identifiers *)






(** ** A sample conversation *)

(** A whole conversation: /post, a video, a title, a description, VK
    deselected, publish. *)
Example conversation_run :
  let steps :=
    [ cmd_post;
      handle_video (u "BAACAgIAAx") 1048576;
      handle_title sample_env (u "-");
      handle_description sample_user (u "first upload");
      toggle_platform sample_user (u "toggle_vk");
      publish sample_env sample_user ] in
  let w := fold_left (fun w step => world_after step w) steps
             {| tokens_file := Some sample_tokens; fsm_state := None;
                fsm_data := empty_data; trace := [] |} in
  fsm_state w = None
  /\ fsm_data w = empty_data
  /\ upload_attempts (trace w) = [u "youtube"; u "instagram"]
  /\ removals (local_path_of sample_env) (trace w) = 1
  /\ final_report w
     = u "<b>📊 Результат публикации:</b>" ++ nl ++ nl
       ++ u "▶️ YouTube Shorts: ✅ https://video.example/youtube" ++ nl
       ++ u "📸 Instagram Reels: ✅ https://video.example/instagram".
Proof. vm_compute. repeat split. Qed.

(** * Further properties of the code *)

(** ** Dicts *)

Section DictFacts.

Variables (K V : Type) (eqbK : K -> K -> bool).
Hypothesis eqbK_eq : forall a b, eqbK a b = true <-> a = b.

Lemma eqbK_refl (k : K) : eqbK k k = true.
Proof. apply eqbK_eq; reflexivity. Qed.

Lemma eqbK_neq (a b : K) : a <> b -> eqbK a b = false.
Proof.
  intros H. destruct (eqbK a b) eqn:E; [|reflexivity].
  apply eqbK_eq in E; contradiction.
Qed.

Lemma dict_get_set_same (d : dict K V) (k : K) (v : V) :
  dict_get eqbK (dict_set eqbK d k v) k = Some v.
Proof.
  induction d as [|[k0 v0] d IH]; cbn.
  - rewrite eqbK_refl; reflexivity.
  - destruct (eqbK k0 k) eqn:E; cbn; rewrite E; [reflexivity | exact IH].
Qed.

Lemma dict_get_set_other (d : dict K V) (k k' : K) (v : V) :
  k' <> k -> dict_get eqbK (dict_set eqbK d k v) k' = dict_get eqbK d k'.
Proof.
  intros Hne. induction d as [|[k0 v0] d IH]; cbn.
  - rewrite eqbK_neq by congruence. reflexivity.
  - destruct (eqbK k0 k) eqn:E; cbn.
    + apply eqbK_eq in E; subst k0.
      rewrite eqbK_neq by congruence. reflexivity.
    + destruct (eqbK k0 k'); [reflexivity | exact IH].
Qed.


Lemma dict_get_None (d : dict K V) (k : K) :
  dict_get eqbK d k = None <-> ~ In k (dict_keys d).
Proof.
  induction d as [|[k0 v0] d IH]; cbn; [tauto|].
  destruct (eqbK k0 k) eqn:E.
  - apply eqbK_eq in E. split; [discriminate | tauto].
  - assert (k0 <> k) by (intros H; apply eqbK_eq in H; congruence).
    rewrite IH; tauto.
Qed.

Lemma dict_get_del_other (d : dict K V) (k k' : K) :
  k' <> k -> dict_get eqbK (dict_del eqbK d k) k' = dict_get eqbK d k'.
Proof.
  intros Hne. induction d as [|[k0 v0] d IH]; cbn; [reflexivity|].
  destruct (eqbK k0 k) eqn:E; cbn.
  - apply eqbK_eq in E; subst k0.
    rewrite eqbK_neq by congruence. reflexivity.
  - destruct (eqbK k0 k'); [reflexivity | exact IH].
Qed.



Lemma dict_get_del_same (d : dict K V) (k : K) :
  NoDup (dict_keys d) -> dict_get eqbK (dict_del eqbK d k) k = None.
Proof.
  induction d as [|[k0 v0] d IH]; cbn; intros H; [reflexivity|].
  inversion H as [|? ? Hn Hd]; subst.
  destruct (eqbK k0 k) eqn:E; cbn.
  - apply eqbK_eq in E; subst k0. apply dict_get_None; exact Hn.
  - rewrite E. exact (IH Hd).
Qed.



End DictFacts.

Lemma Z_eqb_eq (a b : Z) : Z.eqb a b = true <-> a = b.
Proof. apply Z.eqb_eq. Qed.

(** ** Token storage *)

Lemma tokens_of_set_same (db : tokens_db) (user_id : Z) (t : user_tokens) :
  tokens_of (dict_set Z.eqb db user_id t) user_id = t.
Proof. unfold tokens_of. rewrite (@dict_get_set_same _ _ Z.eqb Z_eqb_eq). reflexivity. Qed.

Lemma tokens_of_set_other (db : tokens_db) (user_id user_id' : Z)
    (t : user_tokens) :
  user_id' <> user_id ->
  tokens_of (dict_set Z.eqb db user_id t) user_id' = tokens_of db user_id'.
Proof.
  intros H. unfold tokens_of.
  rewrite (@dict_get_set_other _ _ Z.eqb Z_eqb_eq) by exact H. reflexivity.
Qed.



Lemma remove_user_token_spec (user_id : Z) (platform : str) (w : world) :
  (stored_token w user_id platform = None
   /\ remove_user_token user_id platform w = (Ok tt, w))
  \/ (stored_token w user_id platform <> None
      /\ exists db,
           remove_user_token user_id platform w
           = (Ok tt, with_tokens_file (Some db) w)
           /\ tokens_of db user_id
              = dict_del eqb (tokens_of (load_tokens w) user_id) platform
           /\ forall user_id', user_id' <> user_id ->
                tokens_of db user_id' = tokens_of (load_tokens w) user_id').
Proof.
  unfold remove_user_token, stored_token, save_tokens.
  destruct (dict_get eqb (tokens_of (load_tokens w) user_id) platform)
    as [t|] eqn:E.
  - right. split; [discriminate|].
    assert (Hu : dict_has Z.eqb (load_tokens w) user_id = true).
    { unfold dict_has. unfold tokens_of in E.
      destruct (dict_get Z.eqb (load_tokens w) user_id);
        [reflexivity | discriminate E]. }
    assert (Hp : dict_has eqb (tokens_of (load_tokens w) user_id) platform
                 = true) by (unfold dict_has; rewrite E; reflexivity).
    rewrite Hu, Hp. cbn [andb].
    eexists. split; [reflexivity|]. split.
    + apply tokens_of_set_same.
    + intros user_id' Hne. apply tokens_of_set_other; exact Hne.
  - left. split; [reflexivity|].
    assert (Hp : dict_has eqb (tokens_of (load_tokens w) user_id) platform
                 = false) by (unfold dict_has; rewrite E; reflexivity).
    rewrite Hp, andb_false_r. reflexivity.
Qed.




Lemma remove_user_token_lookup (user_id : Z) (platform : str) (w : world) :
  NoDup (dict_keys (tokens_of (load_tokens w) user_id)) ->
  let w' := snd (remove_user_token user_id platform w) in
  stored_token w' user_id platform = None
  /\ (forall user_id' platform',
        user_id' <> user_id \/ platform' <> platform ->
        stored_token w' user_id' platform' = stored_token w user_id' platform')
  /\ fsm_state w' = fsm_state w /\ fsm_data w' = fsm_data w
  /\ trace w' = trace w.
Proof.
  intros Hnd. cbn zeta.
  destruct (remove_user_token_spec user_id platform w)
    as [[Hnone ->] | [_ (db & -> & Hsame & Hother)]]; cbn [fst snd].
  - repeat split; assumption.
  - unfold stored_token, load_tokens. cbn [with_tokens_file tokens_file].
    fold (load_tokens w). split.
    + rewrite Hsame. apply (@dict_get_del_same _ _ eqb eqb_eq); exact Hnd.
    + split; [|repeat split].
      intros user_id' platform' H.
      destruct (Z.eq_dec user_id' user_id) as [->|Hne].
      * destruct H as [H|H]; [congruence|].
        rewrite Hsame. apply (@dict_get_del_other _ _ eqb eqb_eq); exact H.
      * rewrite (Hother _ Hne). reflexivity.
Qed.

(** X3.  After [remove_user_token] the platform is no longer found for
    that user, provided the user's dict holds no platform twice; the
    lookups of every other user or platform are as before. *)
Theorem remove_user_token_then_get (user_id : Z) (platform : str) (w : world) :
  NoDup (dict_keys (tokens_of (load_tokens w) user_id)) ->
  let w' := world_after (remove_user_token user_id platform) w in
  result_of (remove_user_token user_id platform) w = Ok tt
  /\ stored_token w' user_id platform = None
  /\ (forall user_id' platform',
        user_id' <> user_id \/ platform' <> platform ->
        stored_token w' user_id' platform' = stored_token w user_id' platform')
  /\ fsm_state w' = fsm_state w /\ fsm_data w' = fsm_data w
  /\ trace w' = trace w.
Proof.
  intros Hnd. cbn zeta. unfold world_after, result_of. split.
  - destruct (remove_user_token_spec user_id platform w)
      as [[_ ->] | [_ (db & -> & _)]]; reflexivity.
  - exact (@remove_user_token_lookup user_id platform w Hnd).
Qed.

Lemma remove_user_token_then_get_witness :
  let w' := world_after (remove_user_token sample_user (u "vk")) choosing_world in
  result_of (remove_user_token sample_user (u "vk")) choosing_world = Ok tt
  /\ stored_token w' sample_user (u "vk") = None
  /\ (forall user_id' platform',
        user_id' <> sample_user \/ platform' <> u "vk" ->
        stored_token w' user_id' platform'
        = stored_token choosing_world user_id' platform')
  /\ fsm_state w' = fsm_state choosing_world
  /\ fsm_data w' = fsm_data choosing_world
  /\ trace w' = trace choosing_world.
Proof.
  apply (@remove_user_token_then_get sample_user (u "vk") choosing_world).
  repeat constructor; vm_compute; intuition discriminate.
Defined.

(** X4.  Removing the token of a platform the user has no token for, or of
    a user the file does not know, changes nothing at all: the token file is
    not even written. *)
Theorem remove_absent_token_is_noop (user_id : Z) (platform : str) (w : world) :
  stored_token w user_id platform = None ->
  remove_user_token user_id platform w = (Ok tt, w).
Proof.
  intros H.
  destruct (remove_user_token_spec user_id platform w)
    as [[_ E] | [Hsome _]]; [exact E | contradiction].
Qed.

Lemma remove_absent_token_is_noop_witness :
  remove_user_token new_user (u "vk") initial_world = (Ok tt, initial_world)
  /\ remove_user_token sample_user (u "tiktok") choosing_world
     = (Ok tt, choosing_world).
Proof.
  split.
  - apply (@remove_absent_token_is_noop new_user (u "vk") initial_world).
    reflexivity.
  - apply (@remove_absent_token_is_noop sample_user (u "tiktok")
             choosing_world).
    reflexivity.
Defined.




(** ** Text inputs *)

Lemma lstrip_id (s : str) :
  (forall c rest, s = c :: rest -> isspace c = false) -> lstrip s = s.
Proof.
  destruct s as [|c rest]; [reflexivity|]. intros H. cbn.
  rewrite (H c rest eq_refl). reflexivity.
Qed.

Lemma trimmed_strip (s : str) : trimmed s -> strip s = s.
Proof.
  intros [Hfirst Hlast]. unfold strip, rstrip.
  rewrite (lstrip_id Hfirst).
  rewrite lstrip_id; [apply rev_involutive|].
  intros c rest H. apply (Hlast c (rev rest)).
  rewrite <- (rev_involutive s), H. reflexivity.
Qed.

(** X7.  A title that neither starts nor ends with whitespace and is not
    [-] is stored exactly as typed. *)
Theorem trimmed_title_stored_verbatim (env : collaborators) (w : world)
    (message_text : str) :
  trimmed message_text ->
  message_text <> u "-" ->
  title (fsm_data (world_after (handle_title env message_text) w))
  = Some message_text.
Proof.
  intros Ht Hne. unfold world_after, handle_title, bind, update_data.
  cbn [snd fst]. unfold answer, emit, set_state. cbn.
  unfold title_of. rewrite (trimmed_strip Ht).
  apply eqb_neq in Hne. rewrite Hne. reflexivity.
Qed.

Lemma trimmed_title_stored_verbatim_witness :
  title (fsm_data (world_after (handle_title sample_env (u "My first video"))
                     choosing_world))
  = Some (u "My first video").
Proof.
  apply (@trimmed_title_stored_verbatim sample_env choosing_world
           (u "My first video")).
  - split; intros c r H.
    + vm_compute in H. injection H as <- _. reflexivity.
    + assert (E : u "My first video" = u "My first vide" ++ [111%N])
        by reflexivity.
      rewrite E in H. apply app_inj_tail in H. destruct H as [_ <-].
      reflexivity.
  - vm_compute; discriminate.
Defined.

Lemma strip_prefix_app (prefix s rest : str) :
  strip_prefix prefix s = Some rest -> s = prefix ++ rest.
Proof.
  revert s. induction prefix as [|a prefix IH]; intros s; cbn.
  - intros H; injection H as ->; reflexivity.
  - destruct s as [|b s]; [discriminate|].
    destruct (a =? b)%N eqn:E; [|discriminate].
    apply N.eqb_eq in E; subst b. intros H. f_equal. exact (IH _ H).
Qed.

Lemma span_spec (p : char -> bool) (s a b : str) :
  span p s = (a, b) ->
  s = a ++ b /\ Forall (fun c => p c = true) a
  /\ (forall c rest, b = c :: rest -> p c = false).
Proof.
  revert a b. induction s as [|c s IH]; intros a b; cbn.
  - intros H; injection H as <- <-. repeat split; [constructor|discriminate].
  - destruct (p c) eqn:E.
    + destruct (span p s) as [a' b'] eqn:S. intros H; injection H as <- <-.
      destruct (IH a' b' eq_refl) as (Hs & Ha & Hb).
      repeat split; [cbn; congruence | constructor; assumption | exact Hb].
    + intros H; injection H as <- <-.
      repeat split; [constructor|].
      intros c' rest H; injection H as <- _; exact E.
Qed.

(** X8.  What the bot extracts from a VK link as the access token is not
    empty, holds no [&], and is the text that follows an occurrence of
    [access_token=] up to the next [&] or the end. *)
Theorem search_access_token_sound (text token : str) :
  search_access_token text = Some token ->
  token <> []
  /\ ~ In 38%N token
  /\ exists before after,
       text = before ++ u "access_token=" ++ token ++ after
       /\ (forall c rest, after = c :: rest -> c = 38%N).
Proof.
  induction text as [|c text IH].
  - cbn. discriminate.
  - cbn [search_access_token].
    destruct (strip_prefix (u "access_token=") (c :: text)) as [rest|] eqn:P.
    + destruct (span (fun c => negb (c =? 38)%N) rest) as [tok after] eqn:S.
      cbn [fst].
      destruct (span_spec _ _ S) as (Hrest & Htok & Hafter).
      destruct tok as [|t tok'].
      * intros H. destruct (IH H) as (Hne & Hamp & before & after' & Ht & Ha).
        repeat split; try assumption.
        exists (c :: before), after'. split; [cbn; congruence | exact Ha].
      * intros H; injection H as <-.
        split; [discriminate|]. split.
        { intros Hin. rewrite Forall_forall in Htok.
          specialize (Htok _ Hin). cbn in Htok. discriminate Htok. }
        exists [], after. split.
        { cbn [app]. rewrite (strip_prefix_app _ _ P), Hrest. reflexivity. }
        intros c' r Hc. specialize (Hafter _ _ Hc).
        apply negb_false_iff, N.eqb_eq in Hafter. exact Hafter.
    + intros H. destruct (IH H) as (Hne & Hamp & before & after' & Ht & Ha).
      repeat split; try assumption.
      exists (c :: before), after'. split; [cbn; congruence | exact Ha].
Qed.

Lemma search_access_token_sound_witness :
  u "abc" <> []
  /\ ~ In 38%N (u "abc")
  /\ exists before after,
       u "https://oauth.vk.com/blank.html#access_token=abc&expires_in=0"
       = before ++ u "access_token=" ++ u "abc" ++ after
       /\ (forall c rest, after = c :: rest -> c = 38%N).
Proof.
  apply (@search_access_token_sound
           (u "https://oauth.vk.com/blank.html#access_token=abc&expires_in=0")
           (u "abc")).
  reflexivity.
Defined.







(** X10.  A text sent in [waiting_video] while no platform is being
    connected is answered with the prompt for a video and changes nothing
    else: the state, the context and the token file stay as they are. *)
Theorem text_without_connection_reprompts (env : collaborators) (user_id : Z)
    (w : world) (message_text : str) :
  connecting (fsm_data w) = None \/ connecting (fsm_data w) = Some [] ->
  handle_auth_text env user_id message_text w
  = (Ok tt, add_trace [Answer (u "Отправь видео или нажми /post") None] w).
Proof.
  intros [H|H]; unfold handle_auth_text, bind, get_data; rewrite H;
    reflexivity.
Qed.

Lemma text_without_connection_reprompts_witness :
  let w := world_after cmd_post choosing_world in
  handle_auth_text sample_env sample_user (u "hello") w
  = (Ok tt, add_trace [Answer (u "Отправь видео или нажми /post") None] w).
Proof.
  apply (@text_without_connection_reprompts sample_env sample_user
           (world_after cmd_post choosing_world) (u "hello")).
  left; reflexivity.
Defined.

(** X11.  Instagram credentials are read as the first word and whatever
    follows the whitespace after it: the login is not empty and holds no
    whitespace, the password is not empty and starts with a character that
    is not whitespace (it may hold whitespace further on), and nothing but
    whitespace was dropped. *)
Theorem split_login_password (text username password : str) :
  split_maxsplit1 text = [username; password] ->
  username <> []
  /\ Forall (fun c => isspace c = false) username
  /\ (exists c rest, password = c :: rest /\ isspace c = false)
  /\ exists lead gap,
       text = lead ++ username ++ gap ++ password
       /\ all_space lead /\ all_space gap /\ gap <> [].
Proof.
  unfold split_maxsplit1.
  destruct (lstrip_split text) as (lead & Htext & Hlead).
  destruct (lstrip text) as [|c s1] eqn:L; [discriminate|].
  destruct (span (fun c => negb (isspace c)) (c :: s1)) as [word rest] eqn:S.
  destruct (span_spec _ _ S) as (Hs & Hword & Hrest).
  destruct (lstrip_split rest) as (gap & Hgap & Hgs).
  destruct (lstrip rest) as [|c2 rem] eqn:L2; [discriminate|].
  intros H; injection H as <- <-.
  assert (Hc : isspace c = false) by (eapply lstrip_head; exact L).
  split.
  { intros ->. cbn in S. rewrite Hc in S. cbn in S.
    destruct (span _ s1); discriminate S. }
  split.
  { eapply Forall_impl; [|exact Hword]. cbn. intros a Ha.
    apply negb_true_iff in Ha. exact Ha. }
  split.
  { exists c2, rem. split; [reflexivity|]. eapply lstrip_head; exact L2. }
  exists lead, gap. repeat split; try assumption.
  - rewrite Htext, Hs, Hgap. reflexivity.
  - intros ->. cbn in Hgap. subst rest.
    specialize (Hrest c2 rem eq_refl). apply negb_false_iff in Hrest.
    assert (Hc2 : isspace c2 = false) by (eapply lstrip_head; exact L2).
    congruence.
Qed.

Lemma split_login_password_witness :
  u "bob" <> []
  /\ Forall (fun c => isspace c = false) (u "bob")
  /\ (exists c rest, u "s3cret x" = c :: rest /\ isspace c = false)
  /\ exists lead gap,
       u "bob  s3cret x" = lead ++ u "bob" ++ gap ++ u "s3cret x"
       /\ all_space lead /\ all_space gap /\ gap <> [].
Proof.
  apply (@split_login_password (u "bob  s3cret x") (u "bob") (u "s3cret x")).
  reflexivity.
Defined.

(** ** Connecting *)

Lemma registered_cases (p_id : str) :
  registered p_id <->
  p_id = u "youtube" \/ p_id = u "vk" \/ p_id = u "instagram"
  \/ p_id = u "tiktok".
Proof.
  unfold registered, PLATFORMS. cbn [dict_get]. split.
  - intros H.
    destruct (eqb (u "youtube") p_id) eqn:E1;
      [apply eqb_eq in E1; auto|].
    destruct (eqb (u "vk") p_id) eqn:E2;
      [apply eqb_eq in E2; auto|].
    destruct (eqb (u "instagram") p_id) eqn:E3;
      [apply eqb_eq in E3; auto|].
    destruct (eqb (u "tiktok") p_id) eqn:E4;
      [apply eqb_eq in E4; auto 6|].
    congruence.
  - intros [-> | [-> | [-> | ->]]]; vm_compute; discriminate.
Qed.




(** ** The choice keyboard *)

(** The keyboard has one row per platform asked for, in the same order;
    the row of a platform is checked exactly when the platform is
    selected, and its button carries the platform in its callback data. *)
Lemma platform_rows_run (selected p_ids : list str) (w : world) :
  Forall registered p_ids ->
  exists rows,
    platform_rows selected p_ids w = (Ok rows, w)
    /\ List.length rows = List.length p_ids
    /\ forall i p_id,
         nth_error p_ids i = Some p_id ->
         exists p_info,
           dict_get eqb PLATFORMS p_id = Some p_info
           /\ nth_error rows i
              = Some [ {| button_text :=
                            (if mem p_id selected then u "☑️" else u "⬜")
                            ++ sp ++ emoji p_info ++ sp ++ name p_info;
                          callback_data := u "toggle_" ++ p_id |} ].
Proof.
  induction 1 as [|p_id rest Hp _ (rows & Hrun & Hlen & Hrows)].
  - exists []. repeat split. intros [|i] p H; discriminate H.
  - unfold registered in Hp.
    destruct (dict_get eqb PLATFORMS p_id) as [p_info|] eqn:E; [|congruence].
    eexists. split; [|split].
    + cbn [platform_rows]. unfold bind at 1. unfold platforms_getitem.
      rewrite E. unfold ret at 1. unfold bind. rewrite Hrun. reflexivity.
    + cbn. rewrite Hlen. reflexivity.
    + intros [|i] q Hq; cbn in Hq.
      * injection Hq as <-. exists p_info. split; [exact E | reflexivity].
      * exact (Hrows i q Hq).
Qed.

Lemma platform_rows_unregistered (selected p_ids : list str) (w : world) :
  platform_rows selected p_ids w
  = (match first_unregistered p_ids with
     | Some p_id => Raised (KeyError p_id)
     | None => fst (platform_rows selected p_ids w)
     end, w).
Proof.
  induction p_ids as [|p_id rest IH]; [reflexivity|].
  rewrite first_unregistered_cons. cbn [platform_rows].
  unfold bind at 1 3. unfold platforms_getitem, is_registered, dict_has.
  destruct (dict_get eqb PLATFORMS p_id) as [p_info|]; [|reflexivity].
  unfold ret at 1 3. unfold bind. rewrite IH.
  destruct (first_unregistered rest); [reflexivity|].
  cbn [fst]. destruct (fst (platform_rows selected rest w)); reflexivity.
Qed.

(** ** Description *)

Lemma handle_description_run (user_id : Z) (message_text : str) (w : world) :
  let desc := if eqb (strip message_text) (u "-") then []
              else strip message_text in
  let tokens := tokens_of (load_tokens w) user_id in
  let w1 := {| tokens_file := tokens_file w; fsm_state := fsm_state w;
               fsm_data := with_description desc (fsm_data w);
               trace := trace w |} in
  let w2 := {| tokens_file := tokens_file w; fsm_state := fsm_state w;
               fsm_data := with_selected (dict_keys tokens)
                             (with_description desc (fsm_data w));
               trace := trace w |} in
  handle_description user_id message_text w
  = match tokens with
    | [] =>
        (Ok tt,
         cleared
           (add_trace
              [Answer (u "❌ Нет подключённых платформ!" ++ nl
                       ++ u "Используй /connect чтобы подключить аккаунты.")
                 None] w1))
    | _ :: _ =>
        match platform_rows (dict_keys tokens) (dict_keys tokens) w2 with
        | (Ok rows, _) =>
            (Ok tt,
             {| tokens_file := tokens_file w;
                fsm_state := Some choosing_platforms;
                fsm_data := fsm_data w2;
                trace := trace w ++ [Answer (u "Выбери платформы:")
                                       (Some (rows ++ [publish_row]))] |})
        | (Raised e, _) => (Raised e, w2)
        end
    end.
Proof.
  cbn zeta. unfold handle_description.
  unfold bind at 1. unfold update_data at 1.
  unfold bind at 1. unfold get_user_tokens, load_tokens. cbn [tokens_file].
  fold (load_tokens w).
  destruct (tokens_of (load_tokens w) user_id) as [|kv rest] eqn:T.
  - reflexivity.
  - unfold bind at 1. unfold update_data at 1. cbn [fsm_data tokens_file
      fsm_state trace].
    unfold bind at 1.
    match goal with
    | |- context [platform_rows ?s ?k ?w0] =>
        pose proof (platform_rows_world s k w0) as Hw;
        destruct (platform_rows s k w0) as [[rows|e] w1]
    end; cbn in Hw; subst w1; reflexivity.
Qed.

(** X13.  A description sent by a user without any connected platform ends
    the flow: the user is told to connect one, and the whole context is
    dropped, the video and the title included; the state is none. *)
Theorem description_without_platforms_resets (user_id : Z)
    (message_text : str) (w : world) :
  tokens_of (load_tokens w) user_id = [] ->
  let w' := world_after (handle_description user_id message_text) w in
  result_of (handle_description user_id message_text) w = Ok tt
  /\ fsm_state w' = None
  /\ fsm_data w' = empty_data
  /\ tokens_file w' = tokens_file w
  /\ trace w' = trace w ++
       [Answer (u "❌ Нет подключённых платформ!" ++ nl
                ++ u "Используй /connect чтобы подключить аккаунты.") None].
Proof.
  intros Ht. cbn zeta. unfold world_after, result_of.
  rewrite handle_description_run, Ht. repeat split.
Qed.

Lemma description_without_platforms_resets_witness :
  let w' := world_after (handle_description new_user (u "my clip"))
              describing_world in
  result_of (handle_description new_user (u "my clip")) describing_world
  = Ok tt
  /\ fsm_state w' = None
  /\ fsm_data w' = empty_data
  /\ tokens_file w' = tokens_file describing_world
  /\ trace w' = trace describing_world ++
       [Answer (u "❌ Нет подключённых платформ!" ++ nl
                ++ u "Используй /connect чтобы подключить аккаунты.") None].
Proof.
  apply (@description_without_platforms_resets new_user (u "my clip")
           describing_world).
  reflexivity.
Defined.

(** X14.  A description sent by a user whose connected platforms are all
    registered opens the selection: the description is stored stripped,
    [-] standing for the empty description; every connected platform is
    selected, in the order of the user's tokens; the keyboard sent has one
    checked row per connected platform, whose button carries the platform,
    followed by the publish row; the state is [choosing_platforms]. *)
Theorem description_opens_selection (user_id : Z) (message_text : str)
    (w : world) :
  let tokens := tokens_of (load_tokens w) user_id in
  tokens <> [] ->
  Forall registered (dict_keys tokens) ->
  let w' := world_after (handle_description user_id message_text) w in
  result_of (handle_description user_id message_text) w = Ok tt
  /\ fsm_state w' = Some choosing_platforms
  /\ fsm_data w'
     = with_selected (dict_keys tokens)
         (with_description
            (if eqb (strip message_text) (u "-") then []
             else strip message_text)
            (fsm_data w))
  /\ exists rows,
       trace w' = trace w ++ [Answer (u "Выбери платформы:")
                                (Some (rows ++ [publish_row]))]
       /\ List.length rows = List.length (dict_keys tokens)
       /\ forall i p_id,
            nth_error (dict_keys tokens) i = Some p_id ->
            exists p_info,
              dict_get eqb PLATFORMS p_id = Some p_info
              /\ nth_error rows i
                 = Some [ {| button_text := u "☑️" ++ sp ++ emoji p_info
                                            ++ sp ++ name p_info;
                             callback_data := u "toggle_" ++ p_id |} ].
Proof.
  cbn zeta. intros Hne Hreg. unfold world_after, result_of.
  rewrite handle_description_run.
  destruct (tokens_of (load_tokens w) user_id) as [|kv rest] eqn:T;
    [congruence|].
  match goal with
  | |- context [platform_rows ?s ?k ?w0] =>
      destruct (platform_rows_run s w0 Hreg) as (rows & -> & Hlen & Hrows)
  end.
  cbn [fst snd fsm_state fsm_data trace].
  repeat split. exists rows. split; [reflexivity|]. split; [exact Hlen|].
  intros i p_id Hi. destruct (Hrows i p_id Hi) as (p_info & Hp & Hrow).
  exists p_info. split; [exact Hp|].
  assert (Hm : mem p_id (dict_keys (kv :: rest)) = true)
    by (apply mem_In; eapply nth_error_In; exact Hi).
  rewrite Hm in Hrow. exact Hrow.
Qed.

Lemma description_opens_selection_witness :
  let w' := world_after (handle_description sample_user (u " - "))
              describing_world in
  fsm_state w' = Some choosing_platforms
  /\ description (fsm_data w') = Some []
  /\ selected_platforms (fsm_data w')
     = Some [u "youtube"; u "vk"; u "instagram"]
  /\ title (fsm_data w') = Some (u "Demo").
Proof.
  cbn zeta.
  destruct (@description_opens_selection sample_user (u " - ")
              describing_world
              ltac:(vm_compute; discriminate)
              ltac:(repeat constructor; vm_compute; discriminate))
    as (_ & Hst & Hdata & _).
  rewrite Hdata. split; [exact Hst|]. repeat split.
Defined.

(** ** Toggling *)

Lemma In_list_remove (p q : str) (l : list str) :
  NoDup l -> (In q (list_remove p l) <-> In q l /\ q <> p).
Proof.
  induction l as [|y l IH]; cbn; intros Hnd; [tauto|].
  inversion Hnd as [|? ? Hn Hd]; subst.
  destruct (eqb y p) eqn:E.
  - apply eqb_eq in E; subst y. split.
    + intros H. split; [tauto|]. intros ->; contradiction.
    + intros [[H|H] Hne]; [congruence | exact H].
  - apply eqb_neq in E. cbn. rewrite (IH Hd). split.
    + intros [H|H]; [subst; tauto | tauto].
    + intros [[H|H] Hne]; tauto.
Qed.

Lemma toggle_flips (p q : str) (l : list str) :
  NoDup l ->
  In q (toggle p l) <-> (if eqb q p then ~ In p l else In q l).
Proof.
  intros Hnd. unfold toggle. destruct (mem p l) eqn:M.
  - apply mem_In in M. rewrite (In_list_remove p q Hnd).
    destruct (eqb q p) eqn:E.
    + apply eqb_eq in E. tauto.
    + apply eqb_neq in E. tauto.
  - apply mem_not_In in M. rewrite in_app_iff. cbn.
    destruct (eqb q p) eqn:E.
    + apply eqb_eq in E; subst. tauto.
    + apply eqb_neq in E. split; [intros [H|[H|[]]]; congruence || tauto | tauto].
Qed.

(** X15.  One toggle flips the platform named by the callback data and no
    other: that platform is selected afterwards exactly when it was not
    before, every other platform is selected afterwards exactly when it was
    before, and no platform is selected twice.  The state and the token
    file are untouched. *)
Theorem toggle_flips_one_platform (user_id : Z) (data : str) (w : world)
    (selected : list str) :
  selected_platforms (fsm_data w) = Some selected ->
  NoDup selected ->
  let platform := remove_all data (u "toggle_") in
  let w' := world_after (toggle_platform user_id data) w in
  exists selected',
    selected_platforms (fsm_data w') = Some selected'
    /\ NoDup selected'
    /\ (In platform selected' <-> ~ In platform selected)
    /\ (forall q, q <> platform -> (In q selected' <-> In q selected))
    /\ fsm_state w' = fsm_state w
    /\ tokens_file w' = tokens_file w.
Proof.
  intros Hs Hnd. cbn zeta.
  destruct (toggle_platform_world user_id data w) as (D & S & T).
  rewrite D, S, T, Hs. cbn [with_selected selected_platforms or_default].
  eexists. split; [reflexivity|]. split; [apply toggle_NoDup; exact Hnd|].
  split; [|split; [|split; reflexivity]].
  - rewrite (toggle_flips _ _ Hnd), eqb_refl. tauto.
  - intros q Hq. rewrite (toggle_flips _ _ Hnd).
    apply eqb_neq in Hq. rewrite Hq. tauto.
Qed.

Lemma toggle_flips_one_platform_witness :
  let w' := world_after (toggle_platform sample_user (u "toggle_vk"))
              choosing_world in
  exists selected',
    selected_platforms (fsm_data w') = Some selected'
    /\ NoDup selected'
    /\ (In (u "vk") selected'
        <-> ~ In (u "vk") [u "youtube"; u "vk"; u "instagram"])
    /\ (forall q, q <> u "vk" ->
          (In q selected' <-> In q [u "youtube"; u "vk"; u "instagram"]))
    /\ fsm_state w' = fsm_state choosing_world
    /\ tokens_file w' = tokens_file choosing_world.
Proof.
  apply (@toggle_flips_one_platform sample_user (u "toggle_vk") choosing_world
           [u "youtube"; u "vk"; u "instagram"]).
  - reflexivity.
  - repeat constructor; vm_compute; intuition discriminate.
Defined.

Lemma toggle_platform_registered_run (user_id : Z) (data : str) (w : world) :
  let p_ids := dict_keys (tokens_of (load_tokens w) user_id) in
  let selected' := toggle (remove_all data (u "toggle_"))
                     (or_default (selected_platforms (fsm_data w)) []) in
  Forall registered p_ids ->
  exists rows,
    toggle_platform user_id data w
    = (Ok tt,
       {| tokens_file := tokens_file w; fsm_state := fsm_state w;
          fsm_data := with_selected selected' (fsm_data w);
          trace := trace w ++ [ EditReplyMarkup (Some (rows ++ [publish_row]));
                                CallbackAnswer None ] |})
    /\ List.length rows = List.length p_ids
    /\ forall i p_id,
         nth_error p_ids i = Some p_id ->
         exists p_info,
           dict_get eqb PLATFORMS p_id = Some p_info
           /\ nth_error rows i
              = Some [ {| button_text :=
                            (if mem p_id selected' then u "☑️" else u "⬜")
                            ++ sp ++ emoji p_info ++ sp ++ name p_info;
                          callback_data := u "toggle_" ++ p_id |} ].
Proof.
  cbn zeta. intros Hreg. unfold toggle_platform.
  unfold bind at 1. unfold get_data.
  unfold bind at 1. unfold update_data.
  unfold bind at 1. unfold get_user_tokens, load_tokens.
  cbn [tokens_file]. fold (load_tokens w).
  unfold bind at 1.
  match goal with
  | |- context [platform_rows ?s ?k ?w0] =>
      destruct (platform_rows_run s w0 Hreg) as (rows & -> & Hlen & Hrows)
  end.
  exists rows. split; [|split; [exact Hlen | exact Hrows]].
  unfold bind, emit, add_trace. cbn. rewrite <- app_assoc. reflexivity.
Qed.

(** X16.  When the user's connected platforms are all registered, a toggle
    returns and re-renders the keyboard: one row per connected platform, in
    the order of the user's tokens, checked exactly when the platform is in
    the selection the toggle leaves, followed by the publish row. *)
Theorem toggle_keyboard_shows_selection (user_id : Z) (data : str) (w : world) :
  let p_ids := dict_keys (tokens_of (load_tokens w) user_id) in
  Forall registered p_ids ->
  let w' := world_after (toggle_platform user_id data) w in
  let selected' := or_default (selected_platforms (fsm_data w')) [] in
  result_of (toggle_platform user_id data) w = Ok tt
  /\ exists rows,
       trace w' = trace w ++ [ EditReplyMarkup (Some (rows ++ [publish_row]));
                               CallbackAnswer None ]
       /\ List.length rows = List.length p_ids
       /\ forall i p_id,
            nth_error p_ids i = Some p_id ->
            exists p_info,
              dict_get eqb PLATFORMS p_id = Some p_info
              /\ nth_error rows i
                 = Some [ {| button_text :=
                               (if mem p_id selected' then u "☑️" else u "⬜")
                               ++ sp ++ emoji p_info ++ sp ++ name p_info;
                             callback_data := u "toggle_" ++ p_id |} ].
Proof.
  cbn zeta. intros Hreg. unfold world_after, result_of.
  destruct (toggle_platform_registered_run user_id data w Hreg)
    as (rows & -> & Hlen & Hrows).
  cbn [fst snd fsm_data trace selected_platforms with_selected or_default].
  split; [reflexivity|]. exists rows. split; [reflexivity|].
  split; [exact Hlen | exact Hrows].
Qed.

Lemma toggle_keyboard_shows_selection_witness :
  result_of (toggle_platform sample_user (u "toggle_vk")) choosing_world
  = Ok tt
  /\ keyboards
       (trace (world_after (toggle_platform sample_user (u "toggle_vk"))
                 choosing_world))
     = [ [ [ {| button_text := u "☑️ ▶️ YouTube Shorts";
                callback_data := u "toggle_youtube" |} ];
           [ {| button_text := u "⬜ 📱 VK Clips";
                callback_data := u "toggle_vk" |} ];
           [ {| button_text := u "☑️ 📸 Instagram Reels";
                callback_data := u "toggle_instagram" |} ];
           publish_row ] ].
Proof.
  destruct (@toggle_keyboard_shows_selection sample_user (u "toggle_vk")
              choosing_world
              ltac:(repeat constructor; vm_compute; discriminate))
    as (Hr & _).
  split; [exact Hr | reflexivity].
Defined.

(** ** Publish: the edges *)

(** X17.  The publish button with nothing selected, or with no selection
    recorded at all, only raises the alert: nothing is downloaded or
    uploaded, the keyboard stays, and state, context and token file are as
    they were. *)
Theorem publish_nothing_selected (env : collaborators) (user_id : Z)
    (w : world) :
  selected_platforms (fsm_data w) = None
  \/ selected_platforms (fsm_data w) = Some [] ->
  publish env user_id w
  = (Ok tt,
     add_trace [CallbackAnswer (Some (u "⚠️ Выбери хотя бы одну платформу!"))]
       w).
Proof.
  intros [H|H]; unfold publish, bind, get_data; rewrite H; reflexivity.
Qed.

Lemma publish_nothing_selected_witness :
  publish sample_env sample_user nothing_selected_world
  = (Ok tt,
     add_trace [CallbackAnswer (Some (u "⚠️ Выбери хотя бы одну платформу!"))]
       nothing_selected_world).
Proof.
  apply (@publish_nothing_selected sample_env sample_user
           nothing_selected_world).
  right; reflexivity.
Defined.

(** X18.  The publish button with platforms selected but no asset
    reference in the context: the keyboard is removed and the download is
    announced, then the lookup of [video_file_id] raises [KeyError]; the
    download is not attempted and the conversation is left as it was. *)
Theorem publish_without_asset (env : collaborators) (user_id : Z) (w : world)
    (selected : list str) :
  selected_platforms (fsm_data w) = Some selected ->
  selected <> [] ->
  video_file_id (fsm_data w) = None ->
  publish env user_id w
  = (Raised (KeyError (u "video_file_id")),
     add_trace [EditReplyMarkup None; Answer (u "⏳ Скачиваю видео...") None] w).
Proof.
  intros Hs Hne Hf. unfold publish.
  unfold bind at 1. unfold get_data. rewrite Hs.
  cbn [or_default]. destruct selected as [|p rest]; [congruence|].
  unfold bind at 1. unfold emit at 1. unfold bind at 1. unfold answer, emit at 1.
  unfold bind at 1. unfold get_user_tokens.
  unfold bind at 1. rewrite Hf. unfold raise.
  rewrite !add_trace_add_trace. reflexivity.
Qed.

Lemma publish_without_asset_witness :
  publish sample_env sample_user no_asset_world
  = (Raised (KeyError (u "video_file_id")),
     add_trace [EditReplyMarkup None; Answer (u "⏳ Скачиваю видео...") None]
       no_asset_world).
Proof.
  apply (@publish_without_asset sample_env sample_user no_asset_world
           [u "youtube"]).
  - reflexivity.
  - discriminate.
  - reflexivity.
Defined.

Lemma upload_calls_app (a b : list event) :
  upload_calls (a ++ b) = upload_calls a ++ upload_calls b.
Proof.
  induction a as [|e a IH]; [reflexivity|].
  destruct e; cbn; rewrite ?IH; reflexivity.
Qed.

Lemma loop_upload_calls (env : collaborators) (tokens : user_tokens)
    (path vt vd : str) (selected : list str) :
  Forall registered selected ->
  upload_calls (loop_events env tokens path vt vd selected)
  = map (fun p_id =>
           (p_id, (path, vt, vd, or_default (dict_get eqb tokens p_id) (JObj []))))
      selected.
Proof.
  unfold loop_events.
  induction 1 as [|p_id rest Hp _ IH]; [reflexivity|].
  cbn [flat_map map]. rewrite upload_calls_app, IH.
  unfold attempt_events, registered in *.
  destruct (dict_get eqb PLATFORMS p_id); [|congruence].
  destruct (upload_answer _ _ _ _ _ _); reflexivity.
Qed.

(** X19.  All uploads of one publish get the same local file and the same
    title and description, the title being ["Video"] and the description
    empty when the context has none; each platform gets the token the user
    has for it in the token file at the time of the publish, or the empty
    object when the user has none. *)
Theorem publish_upload_arguments (env : collaborators) (user_id : Z)
    (w : world) (selected : list str) (file_id : str) :
  selected_platforms (fsm_data w) = Some selected ->
  selected <> [] ->
  Forall registered selected ->
  video_file_id (fsm_data w) = Some file_id ->
  bot_download env file_id (local_path_of env) = Returns tt ->
  let w' := world_after (publish env user_id) w in
  upload_calls (trace w')
  = upload_calls (trace w)
    ++ map (fun p_id =>
              (p_id,
               (u "downloads/" ++ uuid4_hex env ++ u ".mp4",
                or_default (title (fsm_data w)) (u "Video"),
                or_default (description (fsm_data w)) [],
                or_default (stored_token w user_id p_id) (JObj []))))
         selected.
Proof.
  intros Hs Hne Hreg Hf Hd. cbn zeta.
  destruct (all_registered Hreg) as [Hnone Hpre].
  unfold world_after.
  rewrite (@publish_run env user_id w selected file_id Hs Hne Hf Hd).
  rewrite Hnone, Hpre. cbn [snd]. unfold cleared, add_trace. cbn [trace].
  rewrite !upload_calls_app, (loop_upload_calls _ _ _ _ _ Hreg).
  cbn. rewrite app_nil_r. reflexivity.
Qed.

Lemma publish_upload_arguments_witness :
  upload_calls (trace (world_after (publish sample_env sample_user)
                         choosing_world))
  = [ (u "youtube",
       (u "downloads/0123456789abcdef0123456789abcdef.mp4", u "Demo", [],
        JObj [(u "token", JStr (u "ya29"))]));
      (u "vk",
       (u "downloads/0123456789abcdef0123456789abcdef.mp4", u "Demo", [],
        JObj [(u "access_token", JStr (u "vk1"))]));
      (u "instagram",
       (u "downloads/0123456789abcdef0123456789abcdef.mp4", u "Demo", [],
        JObj [(u "username", JStr (u "bob"))])) ].
Proof.
  apply (@publish_upload_arguments sample_env sample_user choosing_world
           [u "youtube"; u "vk"; u "instagram"] (u "BAACAgIAAx")).
  - reflexivity.
  - discriminate.
  - repeat constructor; vm_compute; discriminate.
  - reflexivity.
  - reflexivity.
Defined.

(** ** Routing and buttons *)

(** X20.  The commands start, status, connect, disconnect and post reach
    their handlers in every state.  The command help reaches [cmd_help] only
    outside the three states that wait for a text: in [waiting_video],
    [waiting_title] and [waiting_description] the message is taken as the
    text that state waits for, so that in [waiting_title] it becomes the
    title. *)
Theorem command_precedence (env : collaborators) (user_id : Z)
    (st : option UploadFlow) (text : str) (w : world) :
  route_message st (TextMessage text (Some (u "start"))) = Some to_cmd_start
  /\ route_message st (TextMessage text (Some (u "status")))
     = Some to_cmd_status
  /\ route_message st (TextMessage text (Some (u "connect")))
     = Some to_cmd_connect
  /\ route_message st (TextMessage text (Some (u "disconnect")))
     = Some to_cmd_disconnect
  /\ route_message st (TextMessage text (Some (u "post"))) = Some to_cmd_post
  /\ route_message st (TextMessage text (Some (u "help")))
     = match st with
       | Some waiting_video => Some to_handle_auth_text
       | Some waiting_title => Some to_handle_title
       | Some waiting_description => Some to_handle_description
       | _ => Some to_cmd_help
       end
  /\ (fsm_state w = Some waiting_title ->
      dispatch env user_id (OnMessage (TextMessage text (Some (u "help")))) w
      = handle_title env text w).
Proof.
  repeat split; try (destruct st as [[]|]; reflexivity).
  intros H. unfold dispatch. rewrite H. reflexivity.
Qed.

Lemma command_precedence_witness :
  let w := world_after (handle_video (u "BAACAgIAAx") 1048576) initial_world in
  route_message (fsm_state w) (TextMessage (u "/help") (Some (u "help")))
  = Some to_handle_title
  /\ dispatch sample_env sample_user
       (OnMessage (TextMessage (u "/help") (Some (u "help")))) w
     = handle_title sample_env (u "/help") w.
Proof.
  cbn zeta.
  destruct (@command_precedence sample_env sample_user
              (Some waiting_title) (u "/help")
              (world_after (handle_video (u "BAACAgIAAx") 1048576)
                 initial_world))
    as (_ & _ & _ & _ & _ & Hhelp & Hdispatch).
  split; [exact Hhelp | exact (Hdispatch eq_refl)].
Defined.

Example help_becomes_the_title :
  let w := world_after (handle_video (u "BAACAgIAAx") 1048576) initial_world in
  let w' := world_after
              (dispatch sample_env sample_user
                 (OnMessage (TextMessage (u "/help") (Some (u "help"))))) w in
  fsm_state w = Some waiting_title
  /\ title (fsm_data w') = Some (u "/help")
  /\ fsm_state w' = Some waiting_description.
Proof. vm_compute. repeat split. Qed.

Lemma startswith_head (s prefix : str) (a b : char) (rest : str) :
  startswith s (a :: rest) = true -> a <> b ->
  forall rest', startswith s (b :: rest') = false.
Proof.
  unfold startswith. destruct s as [|c s]; cbn; [discriminate|].
  destruct (a =? c)%N eqn:E; [|discriminate].
  apply N.eqb_eq in E; subst c. intros _ Hne rest'.
  destruct (b =? a)%N eqn:E'; [|reflexivity].
  apply N.eqb_eq in E'. congruence.
Qed.

(** X21.  The buttons of a choice keyboard do nothing once the
    conversation has left [choosing_platforms]: a toggle or publish callback
    in any other state is dropped, and the world stays as it is. *)
Theorem stale_choice_buttons_are_dropped (env : collaborators) (user_id : Z)
    (w : world) (data : str) :
  fsm_state w <> Some choosing_platforms ->
  data = u "publish" \/ startswith data (u "toggle_") = true ->
  dispatch env user_id (OnCallback data) w = (Ok tt, w).
Proof.
  intros Hst Hdata. unfold dispatch, route, route_callback, callback_handlers.
  cbn [first_match].
  assert (Hc : startswith data (u "connect_") = false).
  { destruct Hdata as [->|H]; [reflexivity|].
    change (u "toggle_") with (116%N :: u "oggle_") in H.
    change (u "connect_") with (99%N :: u "onnect_").
    eapply startswith_head; [exact data | exact H | discriminate]. }
  assert (Hd : startswith data (u "disconnect_") = false).
  { destruct Hdata as [->|H]; [reflexivity|].
    change (u "toggle_") with (116%N :: u "oggle_") in H.
    change (u "disconnect_") with (100%N :: u "isconnect_").
    eapply startswith_head; [exact data | exact H | discriminate]. }
  rewrite Hc, Hd.
  assert (Hin : in_state choosing_platforms (fsm_state w) = false).
  { destruct (fsm_state w) as [[]|]; try reflexivity. congruence. }
  rewrite Hin. reflexivity.
Qed.

Lemma stale_choice_buttons_are_dropped_witness :
  let w := world_after (publish sample_env sample_user) choosing_world in
  dispatch sample_env sample_user (OnCallback (u "toggle_vk")) w = (Ok tt, w)
  /\ dispatch sample_env sample_user (OnCallback (u "publish")) w = (Ok tt, w).
Proof.
  split.
  - apply (@stale_choice_buttons_are_dropped sample_env sample_user
             (world_after (publish sample_env sample_user) choosing_world)
             (u "toggle_vk")).
    + vm_compute; discriminate.
    + right; reflexivity.
  - apply (@stale_choice_buttons_are_dropped sample_env sample_user
             (world_after (publish sample_env sample_user) choosing_world)
             (u "publish")).
    + vm_compute; discriminate.
    + left; reflexivity.
Defined.

(** X22.  A text that is none of the six commands, sent while the bot
    waits for no text (no state, [choosing_platforms] or [uploading]), is
    dropped: nothing is answered and nothing changes. *)
Theorem text_outside_the_flow_is_dropped (env : collaborators) (user_id : Z)
    (w : world) (text : str) (command : option str) :
  fsm_state w = None \/ fsm_state w = Some choosing_platforms
  \/ fsm_state w = Some uploading ->
  (forall c, command = Some c ->
     ~ In c [u "start"; u "status"; u "connect"; u "disconnect"; u "post";
             u "help"]) ->
  dispatch env user_id (OnMessage (TextMessage text command)) w = (Ok tt, w).
Proof.
  intros Hst Hcmd. unfold dispatch, route, route_message, message_handlers.
  cbn [first_match command_is is_text].
  assert (Hno : forall name : string,
             In (u name) [u "start"; u "status"; u "connect"; u "disconnect";
                          u "post"; u "help"] ->
             match command with
             | Some c' => eqb c' (u name)
             | None => false
             end = false).
  { intros name Hin. destruct command as [c|]; [|reflexivity].
    apply eqb_neq. intros ->. exact (Hcmd _ eq_refl Hin). }
  rewrite (Hno "start"%string), (Hno "status"%string),
    (Hno "connect"%string), (Hno "disconnect"%string), (Hno "post"%string),
    (Hno "help"%string) by (cbn; tauto).
  destruct Hst as [-> | [-> | ->]]; reflexivity.
Qed.

Lemma text_outside_the_flow_is_dropped_witness :
  dispatch sample_env sample_user (OnMessage (TextMessage (u "hello") None))
    choosing_world
  = (Ok tt, choosing_world).
Proof.
  apply (@text_outside_the_flow_is_dropped sample_env sample_user
           choosing_world (u "hello") None).
  - right; left; reflexivity.
  - intros c H; discriminate H.
Defined.

(** X23.  The callback data the keyboards build for a registered platform
    leads back to that platform: the connect, disconnect and toggle handlers
    recover the identifier from it, and the router sends it to the handler
    the button is meant for (connect and disconnect in every state, toggle
    in [choosing_platforms]). *)
Theorem button_data_round_trip (p_id : str) :
  registered p_id ->
  remove_all (u "connect_" ++ p_id) (u "connect_") = p_id
  /\ remove_all (u "disconnect_" ++ p_id) (u "disconnect_") = p_id
  /\ remove_all (u "toggle_" ++ p_id) (u "toggle_") = p_id
  /\ (forall st, route_callback st (u "connect_" ++ p_id)
                 = Some to_connect_platform)
  /\ (forall st, route_callback st (u "disconnect_" ++ p_id)
                 = Some to_disconnect_platform)
  /\ route_callback (Some choosing_platforms) (u "toggle_" ++ p_id)
     = Some to_toggle_platform.
Proof.
  intros H. apply registered_cases in H.
  destruct H as [-> | [-> | [-> | ->]]];
    repeat split; try reflexivity; intros [[]|]; reflexivity.
Qed.

Lemma button_data_round_trip_witness :
  remove_all (u "connect_" ++ u "tiktok") (u "connect_") = u "tiktok"
  /\ remove_all (u "disconnect_" ++ u "tiktok") (u "disconnect_") = u "tiktok"
  /\ remove_all (u "toggle_" ++ u "tiktok") (u "toggle_") = u "tiktok"
  /\ (forall st, route_callback st (u "connect_" ++ u "tiktok")
                 = Some to_connect_platform)
  /\ (forall st, route_callback st (u "disconnect_" ++ u "tiktok")
                 = Some to_disconnect_platform)
  /\ route_callback (Some choosing_platforms) (u "toggle_" ++ u "tiktok")
     = Some to_toggle_platform.
Proof.
  apply (@button_data_round_trip (u "tiktok")).
  vm_compute; discriminate.
Defined.

(** ** Disconnecting *)

Lemma in_PLATFORMS_registered (p_id : str) (p_info : platform_info) :
  In (p_id, p_info) PLATFORMS ->
  registered p_id /\ dict_get eqb PLATFORMS p_id = Some p_info.
Proof.
  unfold PLATFORMS. cbn [In].
  intros [H | [H | [H | [H | []]]]]; injection H as <- <-;
    (split; [vm_compute; discriminate | reflexivity]).
Qed.

Lemma disconnect_rows_buttons (tokens : user_tokens) (b : button) :
  In b (buttons_of (disconnect_rows tokens)) <->
  exists p_id p_info,
    In (p_id, p_info) PLATFORMS
    /\ dict_has eqb tokens p_id = true
    /\ b = {| button_text := u "❌ Отключить " ++ emoji p_info ++ sp
                             ++ name p_info;
              callback_data := u "disconnect_" ++ p_id |}.
Proof.
  unfold buttons_of, disconnect_rows. split.
  - intros H. apply in_concat in H. destruct H as (row & Hrow & Hb).
    apply in_flat_map in Hrow.
    destruct Hrow as ([p_id p_info] & Hin & Hrow).
    destruct (dict_has eqb tokens p_id) eqn:E; [|destruct Hrow].
    destruct Hrow as [<-|[]]. destruct Hb as [<-|[]].
    exists p_id, p_info. repeat split; assumption.
  - intros (p_id & p_info & Hin & Hhas & ->).
    apply in_concat.
    exists [ {| button_text := u "❌ Отключить " ++ emoji p_info ++ sp
                               ++ name p_info;
                callback_data := u "disconnect_" ++ p_id |} ].
    split; [|left; reflexivity].
    apply in_flat_map. exists (p_id, p_info). split; [exact Hin|].
    rewrite Hhas. left; reflexivity.
Qed.

Lemma disconnect_registered_run (user_id : Z) (p_id : str) (w : world) :
  registered p_id ->
  exists p_info,
    dict_get eqb PLATFORMS p_id = Some p_info
    /\ disconnect_platform user_id (u "disconnect_" ++ p_id) w
       = (Ok tt,
          add_trace [ Answer (u "✅ " ++ name p_info ++ u " отключён") None;
                      CallbackAnswer None ]
            (snd (remove_user_token user_id p_id w))).
Proof.
  intros Hreg.
  assert (Hdec : remove_all (u "disconnect_" ++ p_id) (u "disconnect_") = p_id).
  { apply registered_cases in Hreg.
    destruct Hreg as [-> | [-> | [-> | ->]]]; reflexivity. }
  unfold registered in Hreg.
  destruct (dict_get eqb PLATFORMS p_id) as [p_info|] eqn:E; [|congruence].
  exists p_info. split; [reflexivity|].
  unfold disconnect_platform. rewrite Hdec. unfold bind at 1.
  destruct (remove_user_token_spec user_id p_id w)
    as [[_ ->] | [_ (db & -> & _)]]; cbn [snd];
    unfold bind at 1; unfold platforms_getitem; rewrite E;
    unfold ret, bind, answer, emit; rewrite add_trace_add_trace; reflexivity.
Qed.

(** X24.  The disconnect keyboard offers exactly the registered platforms
    the user holds a token for, and says so when there is none.  Each of its
    buttons works: its callback data is routed to [disconnect_platform] in
    every state, the handler returns and confirms, and afterwards the
    platform has no token for that user while every other token is as
    before. *)
Theorem disconnect_buttons_work (user_id : Z) (w : world) :
  NoDup (dict_keys (tokens_of (load_tokens w) user_id)) ->
  exists text markup,
    cmd_disconnect user_id w = (Ok tt, add_trace [Answer text markup] w)
    /\ (markup = None <->
        forall p_id, registered p_id -> stored_token w user_id p_id = None)
    /\ (forall p_id,
          registered p_id -> stored_token w user_id p_id <> None ->
          exists b, In b (buttons_of (or_default markup []))
                    /\ callback_data b = u "disconnect_" ++ p_id)
    /\ forall b,
         In b (buttons_of (or_default markup [])) ->
         exists p_id,
           registered p_id
           /\ stored_token w user_id p_id <> None
           /\ callback_data b = u "disconnect_" ++ p_id
           /\ (forall st, route_callback st (callback_data b)
                          = Some to_disconnect_platform)
           /\ let w' := world_after
                          (disconnect_platform user_id (callback_data b)) w in
              result_of (disconnect_platform user_id (callback_data b)) w
              = Ok tt
              /\ stored_token w' user_id p_id = None
              /\ forall user_id' p',
                   user_id' <> user_id \/ p' <> p_id ->
                   stored_token w' user_id' p' = stored_token w user_id' p'.
Proof.
  intros Hnd.
  set (tokens := tokens_of (load_tokens w) user_id).
  assert (Hbuttons : forall b,
             In b (buttons_of (disconnect_rows tokens)) ->
             exists p_id,
               registered p_id
               /\ stored_token w user_id p_id <> None
               /\ callback_data b = u "disconnect_" ++ p_id
               /\ (forall st, route_callback st (callback_data b)
                              = Some to_disconnect_platform)
               /\ let w' := world_after
                              (disconnect_platform user_id (callback_data b))
                              w in
                  result_of (disconnect_platform user_id (callback_data b)) w
                  = Ok tt
                  /\ stored_token w' user_id p_id = None
                  /\ forall user_id' p',
                       user_id' <> user_id \/ p' <> p_id ->
                       stored_token w' user_id' p'
                       = stored_token w user_id' p').
  { intros b Hb. apply disconnect_rows_buttons in Hb.
    destruct Hb as (p_id & p_info & Hin & Hhas & ->).
    destruct (@in_PLATFORMS_registered p_id p_info Hin) as [Hreg _].
    exists p_id. split; [exact Hreg|]. split.
    { unfold stored_token. fold tokens. unfold dict_has in Hhas.
      destruct (dict_get eqb tokens p_id); [discriminate | discriminate]. }
    split; [reflexivity|]. split.
    { cbn [callback_data]. intros st. apply registered_cases in Hreg.
      destruct Hreg as [-> | [-> | [-> | ->]]]; destruct st as [[]|];
        reflexivity. }
    cbn [callback_data]. cbn zeta. unfold world_after, result_of.
    destruct (@disconnect_registered_run user_id p_id w Hreg) as (info & _ & ->).
    cbn [fst snd].
    destruct (@remove_user_token_lookup user_id p_id w Hnd)
      as (Hnone & Hother & _).
    split; [reflexivity|]. split; [exact Hnone | exact Hother]. }
  assert (Hoffer : forall p_id,
             registered p_id -> stored_token w user_id p_id <> None ->
             exists b, In b (buttons_of (disconnect_rows tokens))
                       /\ callback_data b = u "disconnect_" ++ p_id).
  { intros p_id Hreg Hsome. unfold registered in Hreg.
    destruct (dict_get eqb PLATFORMS p_id) as [p_info|] eqn:E; [|congruence].
    exists {| button_text := u "❌ Отключить " ++ emoji p_info ++ sp
                             ++ name p_info;
              callback_data := u "disconnect_" ++ p_id |}.
    split; [|reflexivity].
    apply disconnect_rows_buttons. exists p_id, p_info.
    split; [|split; [|reflexivity]].
    - clear - E. unfold PLATFORMS in *. cbn [dict_get] in E. cbn [In].
      repeat match type of E with
             | (if eqb ?a ?b then _ else _) = _ =>
                 let H := fresh in
                 destruct (eqb a b) eqn:H;
                 [apply eqb_eq in H; subst; injection E as <-; tauto|]
             end.
      discriminate.
    - unfold dict_has, stored_token in *. fold tokens in Hsome.
      destruct (dict_get eqb tokens p_id); [reflexivity | congruence]. }
  unfold cmd_disconnect, bind, get_user_tokens. cbn [fst snd]. fold tokens.
  destruct (disconnect_rows tokens) as [|row rows] eqn:R.
  - exists (u "Нет подключённых платформ."), None.
    split; [reflexivity|]. split; [|split].
    + split; [|reflexivity]. intros _ p_id Hreg.
      destruct (stored_token w user_id p_id) eqn:S; [|reflexivity].
      destruct (Hoffer p_id Hreg) as (b & [] & _). congruence.
    + intros p_id Hreg Hsome. destruct (Hoffer p_id Hreg Hsome) as (b & [] & _).
    + intros b [].
  - exists (u "Выбери что отключить:"), (Some (row :: rows)).
    split; [reflexivity|]. split; [|split].
    + split; [discriminate|]. intros Hall. exfalso.
      assert (Hb : exists b, In b (buttons_of (row :: rows))).
      { assert (Hrow : In row (disconnect_rows tokens))
          by (rewrite R; left; reflexivity).
        unfold disconnect_rows in Hrow. apply in_flat_map in Hrow.
        destruct Hrow as ([p_id p_info] & _ & Hrow).
        destruct (dict_has eqb tokens p_id); [|destruct Hrow].
        destruct Hrow as [<-|[]]. eexists. left. reflexivity. }
      destruct Hb as (b & Hb). destruct (Hbuttons b Hb) as (p_id & Hreg & Hs & _).
      exact (Hs (Hall p_id Hreg)).
    + exact Hoffer.
    + exact Hbuttons.
Qed.

Lemma disconnect_buttons_work_witness :
  keyboards (trace (world_after (cmd_disconnect sample_user) choosing_world))
  = [ [ [ {| button_text := u "❌ Отключить ▶️ YouTube Shorts";
             callback_data := u "disconnect_youtube" |} ];
        [ {| button_text := u "❌ Отключить 📱 VK Clips";
             callback_data := u "disconnect_vk" |} ];
        [ {| button_text := u "❌ Отключить 📸 Instagram Reels";
             callback_data := u "disconnect_instagram" |} ] ] ]
  /\ exists text markup,
       cmd_disconnect sample_user choosing_world
       = (Ok tt, add_trace [Answer text markup] choosing_world).
Proof.
  split; [reflexivity|].
  destruct (@disconnect_buttons_work sample_user choosing_world
              ltac:(repeat constructor; vm_compute; intuition discriminate))
    as (text & markup & H & _).
  exists text, markup. exact H.
Defined.

(** ** Well-formed worlds are kept *)

























(** From the start of the conversation on, with an empty token file: *)
Example initial_world_well_formed : well_formed initial_world.
Proof.
  split; [|split].
  - intros user_id. split; constructor.
  - exact I.
  - discriminate.
Qed.



Example conversation_with_failing_download :
  let w := {| tokens_file := Some sample_tokens; fsm_state := None;
              fsm_data := empty_data; trace := [] |} in
  fst (run_updates offline_env sample_user
         [ OnMessage (VideoMessage (u "BAACAgIAAx") 1048576);
           OnMessage (TextMessage (u "Demo") None);
           OnMessage (TextMessage (u "-") None);
           OnCallback (u "toggle_vk");
           OnCallback (u "publish") ] w)
  = [ Ok tt; Ok tt; Ok tt; Ok tt;
      Raised (DownloadError (u "Bad Request: file is too big")) ].
Proof. vm_compute. reflexivity. Qed.
